(** * Thermocouple reader: the timed acquisition engine of [cli_reader.py]
    and [qt_gui_reader.py], embedded as executable definitions.

    Modelling conventions.
    - Monotonic time and the sampling interval are exact rationals ([Q]);
      the rounding of binary64 addition is outside the model.
    - Temperature readings are binary64 floats ([PrimFloat.float]); a
      channel is [option float], Python's [Optional[float]].
    - [ThermocoupleReader] and the operating system are the environment:
      each loop iteration draws one [tick] record that says how long the
      sleep overshoots, how long the read takes and what it returns.
    - A loop consumes a finite list of ticks; when the list is exhausted
      before the loop leaves, the run is reported as still running.
    - The text of a float in a CSV field is [repr], a parameter.
    - Output to stdout and the Qt widgets that only display are left out. *)

From Stdlib Require Import List String Ascii Bool ZArith QArith Lia Lqa.
From Stdlib Require PrimFloat DecimalString DecimalNat.
Import ListNotations.

Local Open Scope string_scope.
Local Open Scope list_scope.

(* ------------------------------------------------------------------ *)
(** ** Shared data *)

Definition float := PrimFloat.float.

(** One channel value: [None] is the unknown marker. *)
Definition reading := option float.

(** What [read_temperatures()] returns: [None] or a list of channels. *)
Definition raw_read := option (list reading).

(** [@dataclass Sample] of qt_gui_reader.py. *)
Record Sample := mkSample
  { s_ts : string; s_ch1 : reading; s_ch2 : reading;
    s_ch3 : reading; s_ch4 : reading }.

(** Python truthiness of an optional list: [None] and [[]] are falsy. *)
Definition truthy {A} (l : option (list A)) : bool :=
  match l with
  | None => false
  | Some [] => false
  | Some (_ :: _) => true
  end.

Definition len {A} (l : option (list A)) : nat :=
  match l with
  | None => 0
  | Some xs => List.length xs
  end.

Definition elements {A} (l : option (list A)) : list A :=
  match l with
  | None => []
  | Some xs => xs
  end.

Definition all_unknown : reading * reading * reading * reading :=
  (None, None, None, None).

(** [if temps and len(temps) >= 4: ch1, ch2, ch3, ch4 = temps[:4]
     else: ch1 = ch2 = ch3 = ch4 = None]
    (cli_reader.py 113-116, qt_gui_reader.py 92-95). The unpacking of a
    slice that is not four long raises in Python; the guard excludes it. *)
Definition channels (temps : raw_read)
  : reading * reading * reading * reading :=
  if truthy temps && (4 <=? len temps)%nat then
    match firstn 4 (elements temps) with
    | [a; b; c; d] => (a, b, c, d)
    | _ => all_unknown
    end
  else all_unknown.

(* ------------------------------------------------------------------ *)
(** ** Files *)

Definition path := string.
Definition row := list string.

(** A file system: [None] when nothing exists at the path. *)
Definition fs := path -> option (list row).

Definition fs_set (p : path) (c : option (list row)) (d : fs) : fs :=
  fun q => if String.eqb q p then c else d q.

Definition exists_ (d : fs) (p : path) : bool :=
  match d p with
  | Some _ => true
  | None => false
  end.

Inductive open_mode := ModeA | ModeW.

(** An open text file: rows written but not yet flushed sit in [f_buf]. *)
Record file := mkFile { f_path : path; f_buf : list row }.

(** [open(path, mode)]: "w" truncates or creates, "a" creates when absent. *)
Definition fopen (p : path) (m : open_mode) (d : fs) : file * fs :=
  (mkFile p [],
   match m with
   | ModeW => fs_set p (Some []) d
   | ModeA => if exists_ d p then d else fs_set p (Some []) d
   end).

Definition fwrite (r : row) (f : file) : file :=
  mkFile (f_path f) (f_buf f ++ [r]).

Definition content (d : fs) (p : path) : list row :=
  match d p with
  | Some rows => rows
  | None => []
  end.

Definition fflush (f : file) (d : fs) : file * fs :=
  (mkFile (f_path f) [],
   fs_set (f_path f) (Some (content d (f_path f) ++ f_buf f)) d).

(** [close()] flushes what is buffered; the handle is dropped. *)
Definition fclose (f : file) (d : fs) : fs := snd (fflush f d).

Definition header : row :=
  ["timestamp_local"; "ch1_c"; "ch2_c"; "ch3_c"; "ch4_c"].

(* ------------------------------------------------------------------ *)
(** ** Clock arithmetic *)

Definition Qltb (x y : Q) : bool := negb (Qle_bool y x).

(** The environment of one loop iteration. *)
Inductive read_result :=
| ReadOk (temps : raw_read)
| ReadError (msg : string).

Record tick := mkTick
  { oversleep : Q;        (* how much later than asked [time.sleep] returns *)
    latency : Q;          (* time taken by the read and the rest of the body *)
    interrupt : bool;     (* Ctrl+C arrives while this iteration waits *)
    result : read_result; (* what [read_temperatures()] does *)
    stamp : string }.     (* what [iso_now_local()] returns after the read *)

(** [now = time.monotonic(); sleep_s = next_t - now;
     if sleep_s > 0: time.sleep(sleep_s)]: the requested sleep, if any. *)
Definition sleep_request (next_t now : Q) : option Q :=
  let sleep_s := next_t - now in
  if Qltb 0 sleep_s then Some sleep_s else None.

(** The clock after the wait of an iteration. *)
Definition after_wait (next_t now over : Q) : Q :=
  match sleep_request next_t now with
  | Some sleep_s => now + sleep_s + over
  | None => now
  end.

(* ------------------------------------------------------------------ *)
(** ** Observable actions *)

Inductive event :=
| MakeDirs (p : path)
| ReaderOpen
| ReaderClose
| FileOpen (p : path) (m : open_mode)
| FileClose
| WriteRow (r : row)
| Flush
| Wait (deadline now : Q)     (* loop head: clock read against [next_t] *)
| Sleep (d : Q)
| Read
| Stderr (msg : string)
| StopRequest                 (* [ReaderWorker.stop()] takes effect here *)
| SigStatus (msg : string)
| SigSample (s : Sample)
| SigError (msg : string)
| SigFinished
| Dialog (msg : string).

(* ------------------------------------------------------------------ *)
(** ** [str.strip()] on ASCII text *)

Definition is_space (c : ascii) : bool :=
  let n := nat_of_ascii c in
  ((9 <=? n) && (n <=? 13) || (28 <=? n) && (n <=? 32))%nat.

Fixpoint lstrip (s : string) : string :=
  match s with
  | EmptyString => EmptyString
  | String c s' => if is_space c then lstrip s' else s
  end.

Fixpoint rstrip (s : string) : string :=
  match s with
  | EmptyString => EmptyString
  | String c s' =>
      match rstrip s' with
      | EmptyString => if is_space c then EmptyString else String c EmptyString
      | t => String c t
      end
  end.

Definition strip (s : string) : string := rstrip (lstrip s).

Definition is_empty (s : string) : bool :=
  match s with
  | EmptyString => true
  | String _ _ => false
  end.

Section Csv.

(** [str(x)] of a float, as the csv module writes it. *)
Variable repr : float -> string.

(** A field of [csv.writer.writerow]: [None] is written as the empty
    string, a float as its [repr]. *)
Definition csv_field (r : reading) : string :=
  match r with
  | None => ""
  | Some v => repr v
  end.

(** [[ts, ch1, ch2, ch3, ch4]] as the writer renders it. *)
Definition data_row (ts : string) (c : reading * reading * reading * reading)
  : row :=
  let '(c1, c2, c3, c4) := c in
  [ts; csv_field c1; csv_field c2; csv_field c3; csv_field c4].

End Csv.

Definition wait_events (next_t now : Q) : list event :=
  Wait next_t now ::
  match sleep_request next_t now with
  | Some d => [Sleep d]
  | None => []
  end.

(* ------------------------------------------------------------------ *)
(** ** cli_reader.py *)

Module Cli.

Section WithRepr.

Variable repr : float -> string.

Record Args := mkArgs
  { port : string; baudrate : Z; interval : Q; count : Z;
    out : string; append : bool }.

Record env := mkEnv
  { e_fs : fs;              (* the file system before the run *)
    e_default_out : path;   (* what [default_out_path()] returns *)
    e_serial_ok : bool;     (* whether the serial port opens *)
    e_t0 : Q;               (* the first [time.monotonic()] *)
    e_ticks : list tick }.

Inductive outcome :=
| Exit (code : Z)
| Raise (msg : string)
| Running.

Record run := mkRun
  { r_exit : outcome; r_trace : list event; r_fs : fs; r_written : Z }.

(** Lines 71-72:
    [open_mode = "a" if (args.append or file_exists) else "w"]
    [write_header = not (args.append or file_exists)]. *)
Definition open_mode_of (append file_exists : bool) : open_mode :=
  if append || file_exists then ModeA else ModeW.

Definition write_header_of (append file_exists : bool) : bool :=
  negb (append || file_exists).

Record loop_state := mkLoop
  { next_t : Q; now : Q; samples_written : Z; csv : file; disk : fs }.

(** How one pass through the loop body leaves it. *)
Inductive flow :=
| Continue
| Break
| KeyboardInterrupt
| Raised (msg : string).

(** One pass through the body of [while True], lines 101-125. *)
Definition body (interval : Q) (count : Z) (tk : tick) (s : loop_state)
  : flow * list event * loop_state :=
  let now_m := now s in
  let waited := wait_events (next_t s) now_m in
  let now1 := after_wait (next_t s) now_m (oversleep tk) in
  if interrupt tk then
    (KeyboardInterrupt, waited,
     mkLoop (next_t s) now1 (samples_written s) (csv s) (disk s))
  else
    let next' := next_t s + interval in
    match result tk with
    | ReadError msg =>
        (Raised msg, waited ++ [Read],
         mkLoop next' (now1 + latency tk) (samples_written s)
                (csv s) (disk s))
    | ReadOk temps =>
        let r := data_row repr (stamp tk) (channels temps) in
        let fd := fflush (fwrite r (csv s)) (disk s) in
        let n := (samples_written s + 1)%Z in
        (if ((0 <? count) && (count <=? n))%Z then Break else Continue,
         waited ++ [Read; WriteRow r; Flush],
         mkLoop next' (now1 + latency tk) n (fst fd) (snd fd))
    end.

(** The [while True] loop, lines 100-125; [Continue] is returned when the
    ticks run out with the loop still going. *)
Fixpoint loop (interval : Q) (count : Z) (ticks : list tick) (s : loop_state)
  : flow * list event * loop_state :=
  match ticks with
  | [] => (Continue, [], s)
  | tk :: rest =>
      let '(x, evs, s') := body interval count tk s in
      match x with
      | Continue =>
          let '(x', evs', s'') := loop interval count rest s' in
          (x', evs ++ evs', s'')
      | _ => (x, evs, s')
      end
  end.

(** Line 67: [out_path = args.out.strip() or default_out_path()]. *)
Definition out_path (a : Args) (e : env) : path :=
  let stripped := strip (out a) in
  if is_empty stripped then e_default_out e else stripped.

(** Lines 70-72 and 91-95: how the log is opened. The header stays in the
    file's buffer until the first flush. *)
Definition open_log (p : path) (append : bool) (d : fs)
  : file * fs * list event :=
  let file_exists := exists_ d p in
  let open_mode := open_mode_of append file_exists in
  let write_header := write_header_of append file_exists in
  let fd := fopen p open_mode d in
  if write_header then
    (fwrite header (fst fd), snd fd, [FileOpen p open_mode; WriteRow header])
  else (fst fd, snd fd, [FileOpen p open_mode]).

(** [main()], lines 60-133. *)
Definition main (a : Args) (e : env) : run :=
  if Qle_bool (interval a) 0 then
    mkRun (Exit 2) [Stderr "ERROR: --interval must be > 0"] (e_fs e) 0
  else
    let out_path := out_path a e in
    let pre := [MakeDirs out_path; ReaderOpen] in
    if negb (e_serial_ok e) then
      mkRun (Exit 1)
            (pre ++ [Stderr ("ERROR: Failed to open serial port " ++ port a)])
            (e_fs e) 0
    else
      let '(f, d, opened) := open_log out_path (append a) (e_fs e) in
      let '(x, evs, s) :=
        loop (interval a) (count a) (e_ticks e)
             (mkLoop (e_t0 e) (e_t0 e) 0 f d) in
      let tr := pre ++ opened ++ evs in
      match x with
      | Continue => mkRun Running tr (disk s) (samples_written s)
      | Break =>
          mkRun (Exit 0) (tr ++ [FileClose; ReaderClose])
                (fclose (csv s) (disk s)) (samples_written s)
      | KeyboardInterrupt =>
          mkRun (Exit 0) (tr ++ [FileClose; ReaderClose])
                (fclose (csv s) (disk s)) (samples_written s)
      | Raised msg =>
          mkRun (Raise msg) (tr ++ [FileClose; ReaderClose])
                (fclose (csv s) (disk s)) (samples_written s)
      end.

End WithRepr.

End Cli.

(* ------------------------------------------------------------------ *)
(** ** qt_gui_reader.py *)

(** [for i in range(n): body(i)] over a state. *)
Definition for_range {S : Type} (n : nat) (body : nat -> S -> S) (s : S) : S :=
  fold_left (fun acc i => body i acc) (seq 0 n) s.

(** [l[i] = f(l[i])]; no entry is touched when [i] is out of range (Python
    raises there; the buffers always hold four lists). *)
Fixpoint update {A : Type} (i : nat) (f : A -> A) (l : list A) : list A :=
  match l, i with
  | [], _ => []
  | a :: l', O => f a :: l'
  | a :: l', S i' => a :: update i' f l'
  end.

(** [QDoubleSpinBox] keeps its value inside the range it was given. *)
Definition spin_value (lo hi v : Q) : Q :=
  if Qltb v lo then lo else if Qltb hi v then hi else v.

Module Gui.

Section WithRepr.

Variable repr : float -> string.

(** *** ReaderWorker *)

(** When, relative to an iteration of the worker, [stop()] is called from
    the window's thread. *)
Inductive stop_timing :=
| NoStop
| StopBeforeTest    (* before this iteration's [while not self._stop] *)
| StopInFlight.     (* after the test, while the iteration runs *)

Record gtick := mkGTick { g_stop : stop_timing; g_tick : tick }.

Record worker_state := mkWorker { w_stop : bool; w_next_t : Q; w_now : Q }.

Inductive worker_exit :=
| Next
| Stopped
| Failed (msg : string).

Definition sample_of (ts : string) (c : reading * reading * reading * reading)
  : Sample :=
  let '(c1, c2, c3, c4) := c in mkSample ts c1 c2 c3 c4.

(** One iteration entered with [_stop] unset: the [while] test and the
    body, lines 82-97. The worker's thread gets no Ctrl+C, so [interrupt]
    is not read here. *)
Definition iteration (interval : Q) (g : gtick) (s : worker_state)
  : worker_exit * list event * worker_state :=
  match g_stop g with
  | StopBeforeTest =>
      (Stopped, [StopRequest], mkWorker true (w_next_t s) (w_now s))
  | timing =>
      let tk := g_tick g in
      let now := w_now s in
      let waited := wait_events (w_next_t s) now in
      let now1 := after_wait (w_next_t s) now (oversleep tk) in
      let next' := w_next_t s + interval in
      let asked :=
        match timing with
        | StopInFlight => [StopRequest]
        | _ => []
        end in
      let stop' :=
        match timing with
        | StopInFlight => true
        | _ => false
        end in
      let s' := mkWorker stop' next' (now1 + latency tk) in
      match result tk with
      | ReadError msg => (Failed msg, waited ++ asked ++ [Read], s')
      | ReadOk temps =>
          (Next,
           waited ++ asked ++
           [Read; SigSample (sample_of (stamp tk) (channels temps))],
           s')
      end
  end.

(** The [while not self._stop] loop; [Next] is returned when the ticks run
    out with the loop still going. *)
Fixpoint worker_loop (interval : Q) (ticks : list gtick) (s : worker_state)
  : worker_exit * list event :=
  if w_stop s then (Stopped, [])
  else
    match ticks with
    | [] => (Next, [])
    | g :: rest =>
        let '(x, evs, s') := iteration interval g s in
        match x with
        | Next =>
            let '(x', evs') := worker_loop interval rest s' in
            (x', evs ++ evs')
        | _ => (x, evs)
        end
    end.

Definition teardown : list event :=
  [ReaderClose; SigStatus "Stopped."; SigFinished].

(** [ReaderWorker.run], lines 71-107. The status text carries the port; the
    formatted numbers after it are left out. *)
Definition run (port : string) (interval : Q) (serial_ok : bool) (t0 : Q)
  (ticks : list gtick) : worker_exit * list event :=
  if negb serial_ok then
    (Failed "open",
     [ReaderOpen;
      SigError ("Failed to open " ++ port ++ ". Is it in use?");
      SigFinished] ++ teardown)
  else
    let '(x, evs) := worker_loop interval ticks (mkWorker false t0 t0) in
    let body := [ReaderOpen; SigStatus ("Running: " ++ port)] ++ evs in
    match x with
    | Next => (Next, body)
    | Stopped => (Stopped, body ++ teardown)
    | Failed msg => (Failed msg, body ++ [SigError msg] ++ teardown)
    end.

(** *** MainWindow *)

Record window := mkWindow
  { thread_active : bool;        (* [self.thread is not None] *)
    csv_file : option file;      (* [self.csv_file] with its writer *)
    max_points : nat;
    x : list nat;
    y : list (list float);
    idx : nat;
    test_index : nat }.

(** [MainWindow.__init__], lines 119-133. *)
Definition init : window :=
  mkWindow false None 3000 [] [[]; []; []; []] 0 1.

(** The controls read by [start]. *)
Record form := mkForm
  { port_text : string; baud : Z; interval_asked : Q;
    csv_path : string; append_chk : bool }.

(** [interval_spin.setRange(0.1, 3600.0)] and [interval_spin.value()]. *)
Definition interval_spin (asked : Q) : Q := spin_value (1 # 10) 3600 asked.

(** Lines 236-240: the mode and the header test of [_open_csv]. *)
Definition open_mode_of (append file_exists : bool) : open_mode :=
  if append && file_exists then ModeA else ModeW.

Definition write_header_of (append file_exists : bool) : bool :=
  negb (append && file_exists).

(** [_open_csv], lines 234-243. *)
Definition _open_csv (p : path) (append : bool) (d : fs)
  : file * fs * list event :=
  let file_exists := exists_ d p in
  let mode := open_mode_of append file_exists in
  let fd := fopen p mode d in
  if write_header_of append file_exists then
    let fd' := fflush (fwrite header (fst fd)) (snd fd) in
    (fst fd', snd fd',
     [MakeDirs p; FileOpen p mode; WriteRow header; Flush])
  else (fst fd, snd fd, [MakeDirs p; FileOpen p mode]).

Inductive started :=
| Ignored                                  (* a run is already active *)
| Refused                                  (* a control is empty *)
| Launched (port : string) (interval : Q). (* the worker's parameters *)

(** [start], lines 246-289. *)
Definition start (fm : form) (w : window) (d : fs)
  : started * window * fs * list event :=
  if thread_active w then (Ignored, w, d, [])
  else
    let port := strip (port_text fm) in
    if is_empty port then
      (Refused, w, d, [Dialog "Please select a COM port."])
    else
      let interval := interval_spin (interval_asked fm) in
      let out := strip (csv_path fm) in
      if is_empty out then
        (Refused, w, d, [Dialog "Please choose a CSV output path."])
      else
        let '(f, d', evs) := _open_csv out (append_chk fm) d in
        let y' := for_range 4 (fun i ys => update i (fun _ => []) ys) (y w) in
        (Launched port interval,
         mkWindow true (Some f) (max_points w) [] y' 0 (test_index w),
         d', evs).

(** [vals[i] if vals[i] is not None else float("nan")], line 315. *)
Definition plot_value (v : reading) : float :=
  match v with
  | Some t => t
  | None => PrimFloat.nan
  end.

(** [on_sample], lines 298-326. *)
Definition on_sample (s : Sample) (w : window) (d : fs)
  : window * fs * list event :=
  let r := data_row repr (s_ts s) (s_ch1 s, s_ch2 s, s_ch3 s, s_ch4 s) in
  let written :=
    match csv_file w with
    | Some f =>
        let fd := fflush (fwrite r f) d in
        (Some (fst fd), snd fd, [WriteRow r; Flush])
    | None => (None, d, [])
    end in
  let x1 := x w ++ [idx w] in
  let idx1 := S (idx w) in
  let vals := [s_ch1 s; s_ch2 s; s_ch3 s; s_ch4 s] in
  let y1 :=
    for_range 4
      (fun i ys => update i (fun yi => yi ++ [plot_value (nth i vals None)]) ys)
      (y w) in
  let trimmed :=
    if (max_points w <? List.length x1)%nat then
      let drop := (List.length x1 - max_points w)%nat in
      (skipn drop x1,
       for_range 4 (fun i ys => update i (skipn drop) ys) y1)
    else (x1, y1) in
  (mkWindow (thread_active w) (fst (fst written)) (max_points w)
            (fst trimmed) (snd trimmed) idx1 (test_index w),
   snd (fst written), snd written).

(** [on_finished], lines 333-359. *)
Definition on_finished (w : window) (d : fs) : window * fs * list event :=
  let closed :=
    match csv_file w with
    | Some f => (fclose f d, [Flush; FileClose])
    | None => (d, [])
    end in
  (mkWindow false None (max_points w) (x w) (y w) (idx w)
            (S (test_index w)),
   fst closed, snd closed).

(** The window's slot for each signal of the worker; the other actions of
    the worker are not signals. *)
Definition slot (ev : event) (w : window) (d : fs)
  : window * fs * list event :=
  match ev with
  | SigSample s => on_sample s w d
  | SigError msg => (w, d, [Dialog msg])
  | SigFinished => on_finished w d
  | _ => (w, d, [])
  end.

(** Signals are delivered to the window in the order of their emission. *)
Fixpoint deliver (evs : list event) (w : window) (d : fs)
  : window * fs * list event :=
  match evs with
  | [] => (w, d, [])
  | ev :: rest =>
      let '(w1, d1, out1) := slot ev w d in
      let '(w2, d2, out2) := deliver rest w1 d1 in
      (w2, d2, out1 ++ out2)
  end.

Record session_result := mkSession
  { launched : started;
    final : window;
    final_fs : fs;
    worker_trace : list event;
    window_trace : list event }.

(** One press of Start, the worker's run and the window's handling of what
    the worker emits. *)
Definition session (fm : form) (serial_ok : bool) (t0 : Q)
  (ticks : list gtick) (w : window) (d : fs) : session_result :=
  let '(st, w1, d1, evs1) := start fm w d in
  match st with
  | Launched port interval =>
      let wt := snd (run port interval serial_ok t0 ticks) in
      let '(w2, d2, evs2) := deliver wt w1 d1 in
      mkSession st w2 d2 wt (evs1 ++ evs2)
  | _ => mkSession st w1 d1 [] evs1
  end.

End WithRepr.

End Gui.

(* ------------------------------------------------------------------ *)
(** ** Reading traces *)

(** The deadlines the loop waited for, in order. *)
Fixpoint deadlines (evs : list event) : list Q :=
  match evs with
  | [] => []
  | Wait d _ :: rest => d :: deadlines rest
  | _ :: rest => deadlines rest
  end.

(** The sleeps the loop asked for, in order. *)
Fixpoint sleeps (evs : list event) : list Q :=
  match evs with
  | [] => []
  | Sleep d :: rest => d :: sleeps rest
  | _ :: rest => sleeps rest
  end.

(** The rows handed to the csv writer, in order. *)
Fixpoint written (evs : list event) : list row :=
  match evs with
  | [] => []
  | WriteRow r :: rest => r :: written rest
  | _ :: rest => written rest
  end.

(** The samples the worker emitted, in order. *)
Fixpoint samples (evs : list event) : list Sample :=
  match evs with
  | [] => []
  | SigSample s :: rest => s :: samples rest
  | _ :: rest => samples rest
  end.

Definition is_read (ev : event) : bool :=
  match ev with
  | Read => true
  | _ => false
  end.

Definition reads (evs : list event) : nat :=
  List.length (filter is_read evs).

(** What follows the first [StopRequest] of a trace; nothing when there is
    none. *)
Fixpoint after_stop (evs : list event) : list event :=
  match evs with
  | [] => []
  | StopRequest :: rest => rest
  | _ :: rest => after_stop rest
  end.

Definition is_stop (ev : event) : bool :=
  match ev with
  | StopRequest => true
  | _ => false
  end.

Definition has_stop (evs : list event) : bool := existsb is_stop evs.




(** Every row written to an open file so far: those on disk, then those
    still buffered. *)
Definition pending (f : file) (d : fs) : list row :=
  content d (f_path f) ++ f_buf f.

(** The row [on_sample] writes for a Sample. *)
Definition sample_row (repr : float -> string) (s : Sample) : row :=
  data_row repr (s_ts s) (s_ch1 s, s_ch2 s, s_ch3 s, s_ch4 s).

Definition is_finished (ev : event) : bool :=
  match ev with
  | SigFinished => true
  | _ => false
  end.

(** What the worker emits while in its loop: no [SigFinished]. *)
Definition in_loop (evs : list event) : Prop :=
  forallb (fun ev => negb (is_finished ev)) evs = true.

(** The rows of the log at [p] as the window has written them: those of
    the open file, or what is on disk once the file is closed. *)
Definition log_rows (w : Gui.window) (d : fs) (p : path) : list row :=
  match Gui.csv_file w with
  | Some f => pending f d
  | None => content d p
  end.

(** The window's open file, if any, is the one at [p]. *)
Definition log_at (p : path) (w : Gui.window) : Prop :=
  match Gui.csv_file w with
  | Some f => f_path f = p
  | None => True
  end.

(** The live buffers are well formed: four channel buffers, each as long
    as the x axis, none longer than [max_points]. *)
Definition buffers_ok (w : Gui.window) : Prop :=
  List.length (Gui.y w) = 4%nat
  /\ Forall (fun yi => List.length yi = List.length (Gui.x w)) (Gui.y w)
  /\ (List.length (Gui.x w) <= Gui.max_points w)%nat.


(** The tick of a read that succeeds with [temps] at wall-clock [ts]. *)
Definition good_tick (ts : string) (temps : raw_read) : tick :=
  mkTick 0 0 false (ReadOk temps) ts.

Definition is_good (tk : tick) : bool :=
  negb (interrupt tk) &&
  match result tk with
  | ReadOk _ => true
  | ReadError _ => false
  end.

(** The row the loop writes for a tick whose read succeeds. *)
Definition row_of (repr : float -> string) (tk : tick) : row :=
  match result tk with
  | ReadOk temps => data_row repr (stamp tk) (channels temps)
  | ReadError _ => []
  end.

(* ------------------------------------------------------------------ *)
(** ** Concrete inputs *)

Definition repr0 (v : float) : string := "20.5".

Definition no_files : fs := fun _ => None.

Definition old_rows : list row :=
  [header; ["2024-05-01 12:00:00"; "20.5"; "20.5"; "20.5"; "20.5"]].

Definition one_log : fs := fs_set "log.csv" (Some old_rows) no_files.

Definition full_read : raw_read :=
  Some [Some PrimFloat.one; None; Some PrimFloat.two; Some PrimFloat.zero].

Definition short_read : raw_read := Some [Some PrimFloat.one; None].

Definition demo_sample : Sample :=
  mkSample "2024-05-01 12:00:05" (Some PrimFloat.one) None None None.

(** [--interval 1 --count 2 --out log.csv] with three reads on offer. *)
Definition demo_args : Cli.Args :=
  Cli.mkArgs "COM3" 9600 1 2 "log.csv" false.

Definition demo_ticks : list tick :=
  [good_tick "2024-05-01 12:00:01" full_read;
   good_tick "2024-05-01 12:00:02" short_read;
   good_tick "2024-05-01 12:00:03" full_read].

Definition demo_env : Cli.env :=
  Cli.mkEnv no_files "default.csv" true 0 demo_ticks.

(** A first read that takes two and a half intervals, then quick ones. *)
Definition slow_ticks : list tick :=
  [mkTick 0 (5 # 2) false (ReadOk full_read) "2024-05-01 12:00:02";
   good_tick "2024-05-01 12:00:02" full_read;
   good_tick "2024-05-01 12:00:02" full_read;
   good_tick "2024-05-01 12:00:03" full_read].

(** A second run, [--append], over what the first one left. *)
Definition demo_args_append : Cli.Args :=
  Cli.mkArgs "COM3" 9600 1 2 "log.csv" true.

Definition demo_env_again : Cli.env :=
  Cli.mkEnv (Cli.r_fs (Cli.main repr0 demo_args demo_env))
            "default.csv" true 10 demo_ticks.

(** The controls of a GUI run to [log.csv], and a device whose first read
    raises. *)
Definition demo_form : Gui.form :=
  Gui.mkForm "COM3" 9600 1 "log.csv" false.

(** Two reads that succeed, then [stop()] before the third pass. *)
Definition two_then_stop : list Gui.gtick :=
  [Gui.mkGTick Gui.NoStop (good_tick "2024-05-01 12:00:01" full_read);
   Gui.mkGTick Gui.NoStop (good_tick "2024-05-01 12:00:02" short_read);
   Gui.mkGTick Gui.StopBeforeTest (good_tick "2024-05-01 12:00:03" full_read)].

Definition failing_ticks : list Gui.gtick :=
  [Gui.mkGTick Gui.NoStop (mkTick 0 0 false (ReadError "device lost") "")].

(* ------------------------------------------------------------------ *)
(** ** The remaining controls of the window *)

(** [str(n)] of a non-negative integer. *)
Definition str_nat (n : nat) : string :=
  DecimalString.NilEmpty.string_of_uint (Nat.to_uint n).

(** [default_csv_name], qt_gui_reader.py 43-45; [ts] is what
    [datetime.now().strftime("%Y-%m-%d_%H-%M-%S")] returns. *)
Definition default_csv_name (ts : string) (test_id : nat) : string :=
  "thermocouple_" ++ ts ++ "_test" ++ str_nat test_id ++ ".csv".

(** [str.lower()] on ASCII text. *)
Definition lower_ascii (c : ascii) : ascii :=
  let n := nat_of_ascii c in
  if ((65 <=? n) && (n <=? 90))%nat then ascii_of_nat (n + 32) else c.

Fixpoint lower (s : string) : string :=
  match s with
  | EmptyString => EmptyString
  | String c s' => String (lower_ascii c) (lower s')
  end.

(** [s.endswith(suffix)]. *)
Fixpoint endswith (s suffix : string) : bool :=
  String.eqb s suffix ||
  match s with
  | EmptyString => false
  | String _ s' => endswith s' suffix
  end.

(** [browse_csv], qt_gui_reader.py 222-232: the text of the path field
    after the dialog returned [chosen] (empty when cancelled). *)
Definition browse_csv (chosen : string) (field : string) : string :=
  if is_empty chosen then field
  else if negb (endswith (lower chosen) ".csv") then chosen ++ ".csv"
  else chosen.

(** A [QComboBox] that is not editable: its items and the index of the
    current one. Adding to an empty box selects the first item;
    [setCurrentText] selects the first item with that text, if any. *)
Record combo := mkCombo { items : list string; current_index : option nat }.

Definition currentText (c : combo) : string :=
  match current_index c with
  | Some i => nth i (items c) ""
  | None => ""
  end.

Definition combo_clear (c : combo) : combo := mkCombo [] None.

Definition addItems (texts : list string) (c : combo) : combo :=
  mkCombo (items c ++ texts)
          (match current_index c, items c ++ texts with
           | None, _ :: _ => Some 0%nat
           | cur, _ => cur
           end).

Fixpoint findText (t : string) (l : list string) : option nat :=
  match l with
  | [] => None
  | a :: l' =>
      if String.eqb a t then Some 0%nat
      else match findText t l' with
           | Some i => Some (S i)
           | None => None
           end
  end.

Definition setCurrentText (t : string) (c : combo) : combo :=
  match findText t (items c) with
  | Some i => mkCombo (items c) (Some i)
  | None => c
  end.

(** [current in ports]. *)
Definition mem (t : string) (l : list string) : bool :=
  existsb (String.eqb t) l.

(** [refresh_ports], qt_gui_reader.py 209-219; [available] is what
    [available_ports()] returns. *)
Definition refresh_ports (available : list string) (c : combo) : combo :=
  let current := currentText c in
  let c1 := combo_clear c in
  let ports :=
    match available with
    | [] => ["COM3"]
    | _ :: _ => available
    end in
  let c2 := addItems ports c1 in
  if negb (is_empty current) && mem current ports
  then setCurrentText current c2
  else c2.

(* ------------------------------------------------------------------ *)
(** ** Further readings of traces *)

(** The last [n] entries of a list. *)
Definition lastn {A : Type} (n : nat) (l : list A) : list A :=
  skipn (List.length l - n) l.

(** The live buffers show the Samples [hs] received since [start]: the
    x axis holds the last [max_points] of the indices 0, 1, ..., and each
    channel buffer the plot values of the last [max_points] Samples. *)
Definition plots (hs : list Sample) (w : Gui.window) : Prop :=
  Gui.idx w = List.length hs
  /\ Gui.x w = lastn (Gui.max_points w) (seq 0 (List.length hs))
  /\ Gui.y w =
     [lastn (Gui.max_points w) (map (fun s => Gui.plot_value (s_ch1 s)) hs);
      lastn (Gui.max_points w) (map (fun s => Gui.plot_value (s_ch2 s)) hs);
      lastn (Gui.max_points w) (map (fun s => Gui.plot_value (s_ch3 s)) hs);
      lastn (Gui.max_points w) (map (fun s => Gui.plot_value (s_ch4 s)) hs)].

(** The window's open file, if any, has nothing buffered. *)
Definition flushed (w : Gui.window) : Prop :=
  match Gui.csv_file w with
  | Some f => f_buf f = []
  | None => True
  end.

(** Every character of the text is white space. *)
Fixpoint all_space (s : string) : bool :=
  match s with
  | EmptyString => true
  | String c s' => is_space c && all_space s'
  end.




(** The error messages the worker signals, in order. *)
Fixpoint errors (evs : list event) : list string :=
  match evs with
  | [] => []
  | SigError msg :: rest => msg :: errors rest
  | _ :: rest => errors rest
  end.

(** A pass whose clock reading at the loop head is not past its deadline. *)
Definition on_time (ev : event) : Prop :=
  match ev with
  | Wait deadline now => now <= deadline
  | _ => True
  end.

(** What a loop may do: wait, sleep, read, write a row, flush, take a stop
    request, emit a Sample. *)
Definition loop_action (ev : event) : bool :=
  match ev with
  | Wait _ _ | Sleep _ | Read | WriteRow _ | Flush
  | StopRequest | SigSample _ => true
  | _ => false
  end.

(** No read after the reader was closed, no row written or flushed after
    the file was closed. *)
Fixpoint no_use_after_close (evs : list event) : bool :=
  match evs with
  | [] => true
  | ReaderClose :: rest =>
      forallb (fun ev => negb (is_read ev)) rest && no_use_after_close rest
  | FileClose :: rest =>
      forallb (fun ev => match ev with
                         | WriteRow _ | Flush => false
                         | _ => true
                         end) rest
      && no_use_after_close rest
  | _ :: rest => no_use_after_close rest
  end.

Definition finished_count (evs : list event) : nat :=
  List.length (filter is_finished evs).

(** The messages shown in error dialogs, in order. *)
Fixpoint dialogs (evs : list event) : list string :=
  match evs with
  | [] => []
  | Dialog msg :: rest => msg :: dialogs rest
  | _ :: rest => dialogs rest
  end.

(** The ticks of a device that answers every read, with no stop request. *)
Definition unstopped (ticks : list tick) : list Gui.gtick :=
  map (Gui.mkGTick Gui.NoStop) ticks.

(** A stop request before the next pass. *)
Definition stop_now : Gui.gtick :=
  Gui.mkGTick Gui.StopBeforeTest (good_tick "" None).

(* ================================================================== *)
(** * Properties *)

(** ** The file model *)

Lemma fs_set_same (p : path) (c : option (list row)) (d : fs) :
  fs_set p c d p = c.
Proof. unfold fs_set. now rewrite String.eqb_refl. Qed.

Lemma fs_set_other (p q : path) (c : option (list row)) (d : fs) :
  q <> p -> fs_set p c d q = d q.
Proof.
  intros Hq. unfold fs_set.
  destruct (String.eqb_spec q p) as [E | _]; [contradiction | reflexivity].
Qed.

Lemma content_set (p : path) (rows : list row) (d : fs) :
  content (fs_set p (Some rows) d) p = rows.
Proof. unfold content. now rewrite fs_set_same. Qed.

Lemma exists_set (p : path) (rows : list row) (d : fs) :
  exists_ (fs_set p (Some rows) d) p = true.
Proof. unfold exists_. now rewrite fs_set_same. Qed.

Lemma content_absent (d : fs) (p : path) :
  exists_ d p = false -> content d p = [].
Proof. unfold exists_, content. destruct (d p); [discriminate | reflexivity]. Qed.

(** What a file opened in mode [m] starts from. *)
Lemma content_fopen (p : path) (m : open_mode) (d : fs) :
  content (snd (fopen p m d)) p =
  match m with
  | ModeW => []
  | ModeA => content d p
  end.
Proof.
  destruct m; simpl.
  - destruct (exists_ d p) eqn:E; [reflexivity |].
    rewrite content_set. symmetry. now apply content_absent.
  - apply content_set.
Qed.

Lemma exists_fopen (p : path) (m : open_mode) (d : fs) :
  exists_ (snd (fopen p m d)) p = true.
Proof.
  destruct m; simpl.
  - destruct (exists_ d p) eqn:E; [exact E | apply exists_set].
  - apply exists_set.
Qed.

Lemma content_fflush (f : file) (d : fs) :
  content (snd (fflush f d)) (f_path f) = content d (f_path f) ++ f_buf f.
Proof. simpl. apply content_set. Qed.

Lemma content_fclose (f : file) (d : fs) :
  content (fclose f d) (f_path f) = content d (f_path f) ++ f_buf f.
Proof. apply content_fflush. Qed.

(** ** Normalising a raw read *)

Lemma channels_short (temps : raw_read) :
  truthy temps = false \/ (len temps < 4)%nat -> channels temps = all_unknown.
Proof.
  intros [H | H]; unfold channels.
  - now rewrite H.
  - apply Nat.leb_gt in H. rewrite H. now rewrite andb_false_r.
Qed.

Lemma channels_full (a b c d : reading) (more : list reading) :
  channels (Some (a :: b :: c :: d :: more)) = (a, b, c, d).
Proof. reflexivity. Qed.

Lemma written_app (l1 l2 : list event) :
  written (l1 ++ l2) = written l1 ++ written l2.
Proof.
  induction l1 as [| ev l1 IH]; [reflexivity |].
  destruct ev; simpl; rewrite ?IH; reflexivity.
Qed.

Lemma written_wait (d n : Q) : written (wait_events d n) = [].
Proof. unfold wait_events. now destruct (sleep_request d n). Qed.

Lemma samples_app (l1 l2 : list event) :
  samples (l1 ++ l2) = samples l1 ++ samples l2.
Proof.
  induction l1 as [| ev l1 IH]; [reflexivity |].
  destruct ev; simpl; rewrite ?IH; reflexivity.
Qed.

Lemma samples_wait (d n : Q) : samples (wait_events d n) = [].
Proof. unfold wait_events. now destruct (sleep_request d n). Qed.

(** What one pass of the CLI body does when the read succeeds. *)
Lemma cli_body_ok (repr : float -> string) (interval : Q) (count : Z)
  (tk : tick) (s : Cli.loop_state) (temps : raw_read) :
  interrupt tk = false ->
  result tk = ReadOk temps ->
  let r := data_row repr (stamp tk) (channels temps) in
  let out := Cli.body repr interval count tk s in
  snd (fst out) =
    wait_events (Cli.next_t s) (Cli.now s) ++ [Read; WriteRow r; Flush]
  /\ Cli.csv (snd out) = mkFile (f_path (Cli.csv s)) []
  /\ content (Cli.disk (snd out)) (f_path (Cli.csv s)) =
       content (Cli.disk s) (f_path (Cli.csv s)) ++ f_buf (Cli.csv s) ++ [r]
  /\ Cli.samples_written (snd out) = (Cli.samples_written s + 1)%Z
  /\ Cli.next_t (snd out) = Cli.next_t s + interval.
Proof.
  intros Hi Hr. unfold Cli.body. rewrite Hi, Hr. cbn zeta. simpl.
  repeat split.
  rewrite content_set. reflexivity.
Qed.

(** C3: a raw read that is [None], empty or shorter than four values gives
    a Sample whose four channels are all the unknown marker [None], and
    both front ends write it as a row whose four channel fields are the
    empty string, so never the text 0 and never the text NaN. *)
Theorem short_read_gives_unknown_row (repr : float -> string)
  (temps : raw_read) :
  truthy temps = false \/ (len temps < 4)%nat ->
  (forall ts,
      Gui.sample_of ts (channels temps) = mkSample ts None None None None
      /\ data_row repr ts (channels temps) = [ts; ""; ""; ""; ""])
  /\ (forall interval count tk s,
         interrupt tk = false -> result tk = ReadOk temps ->
         let out := Cli.body repr interval count tk s in
         written (snd (fst out)) = [[stamp tk; ""; ""; ""; ""]]
         /\ content (Cli.disk (snd out)) (f_path (Cli.csv s)) =
              content (Cli.disk s) (f_path (Cli.csv s)) ++
              f_buf (Cli.csv s) ++ [[stamp tk; ""; ""; ""; ""]])
  /\ (forall interval g s,
         Gui.g_stop g <> Gui.StopBeforeTest ->
         result (Gui.g_tick g) = ReadOk temps ->
         samples (snd (fst (Gui.iteration interval g s))) =
           [mkSample (stamp (Gui.g_tick g)) None None None None])
  /\ (forall ts w d f,
         Gui.csv_file w = Some f ->
         let out := Gui.on_sample repr (mkSample ts None None None None) w d in
         written (snd out) = [[ts; ""; ""; ""; ""]]
         /\ content (snd (fst out)) (f_path f) =
              content d (f_path f) ++ f_buf f ++ [[ts; ""; ""; ""; ""]])
  /\ (forall ts fld,
         In fld (tl (data_row repr ts (channels temps))) ->
         fld = "" /\ fld <> "0" /\ fld <> "NaN" /\ fld <> "nan").
Proof.
  intros H. apply channels_short in H. rewrite H.
  split; [| split; [| split; [| split]]].
  - intros ts. split; reflexivity.
  - intros interval count tk s Hi Hr.
    destruct (cli_body_ok repr interval count tk s temps Hi Hr)
      as (Hev & _ & Hc & _).
    rewrite H in Hev, Hc. cbn zeta. split.
    + rewrite Hev, written_app, written_wait. reflexivity.
    + exact Hc.
  - intros interval g s Hs Hr. unfold Gui.iteration.
    destruct (Gui.g_stop g); [| contradiction |];
      cbv beta iota zeta; rewrite Hr, H; cbn [fst snd];
      rewrite !samples_app, samples_wait; reflexivity.
  - intros ts w d f Hf. unfold Gui.on_sample. rewrite Hf. cbn zeta. simpl.
    split; [reflexivity |]. rewrite content_set. reflexivity.
  - intros ts fld Hin. simpl in Hin.
    assert (fld = "") as -> by (destruct Hin as [E | [E | [E | [E | []]]]]; now subst).
    repeat split; discriminate.
Qed.

Lemma short_read_gives_unknown_row_witness :
  Gui.sample_of "2024-05-01 12:00:00" (channels short_read)
    = mkSample "2024-05-01 12:00:00" None None None None
  /\ data_row repr0 "2024-05-01 12:00:00" (channels short_read)
    = ["2024-05-01 12:00:00"; ""; ""; ""; ""].
Proof.
  assert (H : truthy short_read = false \/ (len short_read < 4)%nat)
    by (right; simpl; lia).
  exact (proj1 (short_read_gives_unknown_row repr0 short_read H)
               "2024-05-01 12:00:00").
Defined.

(** ** Opening the log *)

Lemma pending_fopen (p : path) (m : open_mode) (d : fs) :
  pending (fst (fopen p m d)) (snd (fopen p m d)) =
  match m with
  | ModeW => []
  | ModeA => content d p
  end.
Proof.
  unfold pending. change (f_path (fst (fopen p m d))) with p.
  rewrite content_fopen. change (f_buf (fst (fopen p m d))) with (@nil row).
  now rewrite app_nil_r.
Qed.

Lemma pending_fwrite (r : row) (f : file) (d : fs) :
  pending (fwrite r f) d = pending f d ++ [r].
Proof. unfold pending. simpl. now rewrite app_assoc. Qed.

Lemma pending_fflush (f : file) (d : fs) :
  pending (fst (fflush f d)) (snd (fflush f d)) = pending f d.
Proof.
  unfold pending. change (f_path (fst (fflush f d))) with (f_path f).
  rewrite content_fflush. simpl. now rewrite app_nil_r.
Qed.

(** C10: at appendMode false with an existing target the CLI computes
    (append, no header) and the GUI (truncate, header); at appendMode true
    with no target the CLI computes (append, no header) and the GUI
    (create, header). The two front ends agree only on the other two
    combinations. *)
Theorem front_ends_disagree :
  (Cli.open_mode_of false true, Cli.write_header_of false true)
    = (ModeA, false)
  /\ (Gui.open_mode_of false true, Gui.write_header_of false true)
    = (ModeW, true)
  /\ (Cli.open_mode_of true false, Cli.write_header_of true false)
    = (ModeA, false)
  /\ (Gui.open_mode_of true false, Gui.write_header_of true false)
    = (ModeW, true)
  /\ (forall append file_exists,
         (Cli.open_mode_of append file_exists,
          Cli.write_header_of append file_exists)
         = (Gui.open_mode_of append file_exists,
            Gui.write_header_of append file_exists)
         <-> append = file_exists)
  /\ pending (fst (fst (Cli.open_log "log.csv" false one_log)))
             (snd (fst (Cli.open_log "log.csv" false one_log))) = old_rows
  /\ pending (fst (fst (Gui._open_csv "log.csv" false one_log)))
             (snd (fst (Gui._open_csv "log.csv" false one_log))) = [header].
Proof.
  repeat (split; [reflexivity |]).
  split; [| split; reflexivity].
  intros append file_exists.
  destruct append, file_exists; cbv; split; congruence.
Qed.


(** What each front end writes and keeps when it opens the log. *)
Lemma open_rows (p : path) (append : bool) (d : fs) :
  (let out := Cli.open_log p append d in
   written (snd out) =
     (if negb (exists_ d p) && negb append then [header] else [])
   /\ pending (fst (fst out)) (snd (fst out))
      = content d p ++ written (snd out))
  /\ (let out := Gui._open_csv p append d in
      written (snd out) =
        (if negb (append && exists_ d p) then [header] else [])
      /\ pending (fst (fst out)) (snd (fst out))
         = (if append && exists_ d p then content d p else [])
           ++ written (snd out)).
Proof.
  split; cbv zeta.
  - unfold Cli.open_log, Cli.write_header_of, Cli.open_mode_of.
    destruct append, (exists_ d p) eqn:E; cbn [orb negb andb fst snd written];
      rewrite ?pending_fwrite, ?pending_fopen, ?app_nil_r;
      rewrite ?(content_absent d p E); split; reflexivity.
  - unfold Gui._open_csv, Gui.write_header_of, Gui.open_mode_of.
    destruct append, (exists_ d p) eqn:E; cbn [orb negb andb fst snd written];
      rewrite ?pending_fflush, ?pending_fwrite, ?pending_fopen, ?app_nil_r;
      split; reflexivity.
Qed.


(** ** Rejecting a bad interval *)

Lemma Qltb_lt (a b : Q) : Qltb a b = true <-> a < b.
Proof.
  unfold Qltb. rewrite negb_true_iff. split.
  - intros H. apply Qnot_le_lt. intros Hle.
    apply Qle_bool_iff in Hle. congruence.
  - intros H. destruct (Qle_bool b a) eqn:E; [| reflexivity].
    apply Qle_bool_iff in E. exfalso. now apply (Qlt_not_le a b).
Qed.

Lemma Qltb_ge (a b : Q) : Qltb a b = false <-> b <= a.
Proof.
  unfold Qltb. rewrite negb_false_iff. apply Qle_bool_iff.
Qed.

Lemma spin_value_in_range (lo hi v : Q) :
  lo <= hi -> lo <= spin_value lo hi v /\ spin_value lo hi v <= hi.
Proof.
  intros Hr. unfold spin_value.
  destruct (Qltb v lo) eqn:E1.
  - split; [apply Qle_refl | exact Hr].
  - apply Qltb_ge in E1. destruct (Qltb hi v) eqn:E2.
    + split; [exact Hr | apply Qle_refl].
    + apply Qltb_ge in E2. split; assumption.
Qed.

(** C8: the CLI answers an interval that is zero or negative with exit
    code 2 and one line on stderr: nothing is opened, the file system is
    as it was and the loop is not entered. The GUI cannot hold such an
    interval: whatever is asked of the spin box, [start] hands the worker
    an interval between 0.1 and 3600. *)
Theorem nonpositive_interval_rejected (repr : float -> string)
  (a : Cli.Args) (e : Cli.env) :
  Cli.interval a <= 0 ->
  Cli.main repr a e =
    Cli.mkRun (Cli.Exit 2) [Stderr "ERROR: --interval must be > 0"]
              (Cli.e_fs e) 0
  /\ (forall fm w d,
         match fst (fst (fst (Gui.start fm w d))) with
         | Gui.Launched _ i =>
             i = Gui.interval_spin (Gui.interval_asked fm)
             /\ 1 # 10 <= i /\ i <= 3600 /\ 0 < i
         | _ => True
         end).
Proof.
  intros H. split.
  - unfold Cli.main. apply Qle_bool_iff in H. now rewrite H.
  - intros fm w d. unfold Gui.start.
    destruct (Gui.thread_active w); [exact I |].
    destruct (is_empty (strip (Gui.port_text fm))); [exact I |].
    destruct (is_empty (strip (Gui.csv_path fm))); [exact I |].
    destruct (Gui._open_csv _ _ _) as [[f d'] evs]. cbn [fst].
    destruct (spin_value_in_range (1 # 10) 3600 (Gui.interval_asked fm))
      as [Hlo Hhi]; [discriminate |].
    unfold Gui.interval_spin. repeat split; try assumption.
    eapply Qlt_le_trans; [| exact Hlo]. reflexivity.
Qed.

Lemma nonpositive_interval_rejected_witness :
  Cli.main repr0 (Cli.mkArgs "COM3" 9600 0 3 "log.csv" false) demo_env =
  Cli.mkRun (Cli.Exit 2) [Stderr "ERROR: --interval must be > 0"] no_files 0.
Proof.
  apply (nonpositive_interval_rejected repr0
           (Cli.mkArgs "COM3" 9600 0 3 "log.csv" false) demo_env).
  simpl. apply Qle_refl.
Defined.

(** ** The live buffers *)

Lemma nan_is_not_zero : PrimFloat.nan <> PrimFloat.zero.
Proof.
  intros H.
  assert (E : PrimFloat.is_nan PrimFloat.nan = PrimFloat.is_nan PrimFloat.zero)
    by now rewrite H.
  vm_compute in E. discriminate E.
Qed.

(** [start] leaves four empty buffers next to an empty x axis. *)
Lemma start_clears_buffers (fm : Gui.form) (w : Gui.window) (d : fs)
  (y1 y2 y3 y4 : list float) :
  Gui.y w = [y1; y2; y3; y4] ->
  match Gui.start fm w d with
  | (Gui.Launched _ _, w', _, _) =>
      Gui.x w' = [] /\ Gui.y w' = [[]; []; []; []] /\ Gui.idx w' = 0%nat
  | _ => True
  end.
Proof.
  intros Hy. unfold Gui.start.
  destruct (Gui.thread_active w); [exact I |].
  destruct (is_empty (strip (Gui.port_text fm))); [exact I |].
  destruct (is_empty (strip (Gui.csv_path fm))); [exact I |].
  destruct (Gui._open_csv _ _ _) as [[f d'] evs].
  rewrite Hy. repeat split.
Qed.

(** One call of [on_sample] on buffers that are as long as the x axis. *)
Lemma on_sample_buffers (repr : float -> string) (s : Sample)
  (w : Gui.window) (d : fs) (y1 y2 y3 y4 : list float) :
  Gui.y w = [y1; y2; y3; y4] ->
  List.length y1 = List.length (Gui.x w) ->
  List.length y2 = List.length (Gui.x w) ->
  List.length y3 = List.length (Gui.x w) ->
  List.length y4 = List.length (Gui.x w) ->
  let w' := fst (fst (Gui.on_sample repr s w d)) in
  let drop := (List.length (Gui.x w) + 1 - Gui.max_points w)%nat in
  Gui.max_points w' = Gui.max_points w
  /\ Gui.x w' = skipn drop (Gui.x w ++ [Gui.idx w])
  /\ Gui.y w' = [skipn drop (y1 ++ [Gui.plot_value (s_ch1 s)]);
                 skipn drop (y2 ++ [Gui.plot_value (s_ch2 s)]);
                 skipn drop (y3 ++ [Gui.plot_value (s_ch3 s)]);
                 skipn drop (y4 ++ [Gui.plot_value (s_ch4 s)])]
  /\ (List.length (Gui.x w') <= Gui.max_points w)%nat
  /\ Forall (fun yi => List.length yi = List.length (Gui.x w')) (Gui.y w')
  /\ Gui.plot_value None = PrimFloat.nan
  /\ PrimFloat.is_nan (Gui.plot_value None) = true
  /\ Gui.plot_value None <> PrimFloat.zero
  /\ (forall v, PrimFloat.is_nan v = false ->
                Gui.plot_value (Some v) <> Gui.plot_value None).
Proof.
  intros Hy H1 H2 H3 H4 w' drop.
  assert (Hx : Gui.x w' = skipn drop (Gui.x w ++ [Gui.idx w])
               /\ Gui.y w' =
                  [skipn drop (y1 ++ [Gui.plot_value (s_ch1 s)]);
                   skipn drop (y2 ++ [Gui.plot_value (s_ch2 s)]);
                   skipn drop (y3 ++ [Gui.plot_value (s_ch3 s)]);
                   skipn drop (y4 ++ [Gui.plot_value (s_ch4 s)])]).
  { subst w' drop. unfold Gui.on_sample. cbn [fst snd Gui.x Gui.y].
    rewrite Hy, length_app. cbn [List.length].
    destruct (Nat.ltb_spec (Gui.max_points w) (List.length (Gui.x w) + 1))
      as [Hlt | Hge].
    - cbn. split; reflexivity.
    - replace (List.length (Gui.x w) + 1 - Gui.max_points w)%nat with 0%nat
        by lia.
      cbn. split; reflexivity. }
  destruct Hx as [Hx Hys].
  split; [reflexivity |]. split; [exact Hx |]. split; [exact Hys |].
  assert (Hlen : forall (A : Type) (l : list A) (a : A),
             List.length l = List.length (Gui.x w) ->
             List.length (skipn drop (l ++ [a])) =
             List.length (skipn drop (Gui.x w ++ [Gui.idx w]))).
  { intros A l a Hl. rewrite !length_skipn, !length_app, Hl. reflexivity. }
  split; [| split; [| split; [| split; [| split]]]].
  - rewrite Hx, length_skipn, length_app. subst drop. cbn [List.length]. lia.
  - rewrite Hx, Hys. repeat constructor; now apply Hlen.
  - reflexivity.
  - reflexivity.
  - exact nan_is_not_zero.
  - intros v Hv E. cbn in E. rewrite E in Hv. vm_compute in Hv. discriminate Hv.
Qed.

(** ** The scheduler *)

Lemma sleep_request_some (d n z : Q) :
  sleep_request d n = Some z -> n < d /\ z = d - n.
Proof.
  unfold sleep_request. destruct (Qltb 0 (d - n)) eqn:E; [| discriminate].
  intros [= <-]. apply Qltb_lt in E. split; [lra | reflexivity].
Qed.

Lemma sleep_request_none (d n : Q) : sleep_request d n = None <-> d <= n.
Proof.
  unfold sleep_request. destruct (Qltb 0 (d - n)) eqn:E.
  - apply Qltb_lt in E. split; [discriminate | lra].
  - apply Qltb_ge in E. split; [lra | reflexivity].
Qed.

Lemma after_wait_late (d n over : Q) : d <= n -> after_wait d n over = n.
Proof.
  intros H. unfold after_wait. apply sleep_request_none in H. now rewrite H.
Qed.

Lemma after_wait_early (d n over : Q) :
  n < d -> after_wait d n over == d + over.
Proof.
  intros H. unfold after_wait. destruct (sleep_request d n) as [z |] eqn:E.
  - apply sleep_request_some in E. destruct E as [_ ->]. ring.
  - apply sleep_request_none in E. lra.
Qed.

Lemma deadlines_app (l1 l2 : list event) :
  deadlines (l1 ++ l2) = deadlines l1 ++ deadlines l2.
Proof.
  induction l1 as [| ev l1 IH]; [reflexivity |].
  destruct ev; simpl; rewrite ?IH; reflexivity.
Qed.

Lemma deadlines_wait (d n : Q) : deadlines (wait_events d n) = [d].
Proof. unfold wait_events. now destruct (sleep_request d n). Qed.



Lemma cli_body_deadlines (repr : float -> string) (interval : Q) (count : Z)
  (tk : tick) (s : Cli.loop_state) :
  deadlines (snd (fst (Cli.body repr interval count tk s))) = [Cli.next_t s].
Proof.
  unfold Cli.body. destruct (interrupt tk); cbn [fst snd].
  - apply deadlines_wait.
  - destruct (result tk); cbn [fst snd];
      now rewrite deadlines_app, deadlines_wait.
Qed.







Lemma cli_open_log_events (p : path) (append : bool) (d : fs) :
  deadlines (snd (Cli.open_log p append d)) = []
  /\ reads (snd (Cli.open_log p append d)) = 0%nat
  /\ f_path (fst (fst (Cli.open_log p append d))) = p.
Proof.
  unfold Cli.open_log.
  destruct (Cli.write_header_of append (exists_ d p)); repeat split.
Qed.




(** ** What the CLI loop writes *)

Lemma reads_app (l1 l2 : list event) : reads (l1 ++ l2) = (reads l1 + reads l2)%nat.
Proof. unfold reads. now rewrite filter_app, length_app. Qed.

Lemma reads_wait (d n : Q) : reads (wait_events d n) = 0%nat.
Proof. unfold wait_events. now destruct (sleep_request d n). Qed.

Lemma cli_body_pending (repr : float -> string) (interval : Q) (count : Z)
  (tk : tick) (s : Cli.loop_state) :
  let out := Cli.body repr interval count tk s in
  f_path (Cli.csv (snd out)) = f_path (Cli.csv s)
  /\ pending (Cli.csv (snd out)) (Cli.disk (snd out))
     = pending (Cli.csv s) (Cli.disk s) ++ written (snd (fst out)).
Proof.
  cbv zeta. unfold Cli.body. destruct (interrupt tk); cbn [fst snd].
  - rewrite written_wait, app_nil_r. split; reflexivity.
  - destruct (result tk); cbn [fst snd Cli.csv Cli.disk].
    + rewrite written_app, written_wait. cbn [app written].
      rewrite pending_fflush, pending_fwrite. split; reflexivity.
    + rewrite written_app, written_wait. cbn [app written].
      rewrite app_nil_r. split; reflexivity.
Qed.

Lemma cli_loop_pending (repr : float -> string) (interval : Q) (count : Z)
  (ticks : list tick) (s : Cli.loop_state) :
  let out := Cli.loop repr interval count ticks s in
  f_path (Cli.csv (snd out)) = f_path (Cli.csv s)
  /\ pending (Cli.csv (snd out)) (Cli.disk (snd out))
     = pending (Cli.csv s) (Cli.disk s) ++ written (snd (fst out)).
Proof.
  revert s. induction ticks as [| tk rest IH]; intros s; cbv zeta.
  - cbn. rewrite app_nil_r. split; reflexivity.
  - cbn [Cli.loop].
    destruct (cli_body_pending repr interval count tk s) as [Hp Hw].
    destruct (Cli.body repr interval count tk s) as [[x evs] s'].
    cbn [fst snd] in *.
    destruct x; cbn [fst snd]; try (split; assumption).
    destruct (IH s') as [Hp' Hw'].
    destruct (Cli.loop repr interval count rest s') as [[x' evs'] s''].
    cbn [fst snd] in *. split; [congruence |].
    rewrite Hw', Hw, written_app, app_assoc. reflexivity.
Qed.

(** One pass over a tick whose read succeeds. *)
Lemma cli_body_good (repr : float -> string) (interval : Q) (count : Z)
  (tk : tick) (s : Cli.loop_state) :
  is_good tk = true ->
  let out := Cli.body repr interval count tk s in
  fst (fst out) =
    (if ((0 <? count) && (count <=? Cli.samples_written s + 1))%Z
     then Cli.Break else Cli.Continue)
  /\ written (snd (fst out)) = [row_of repr tk]
  /\ reads (snd (fst out)) = 1%nat
  /\ Cli.samples_written (snd out) = (Cli.samples_written s + 1)%Z.
Proof.
  unfold is_good, row_of, Cli.body.
  destruct (interrupt tk); [discriminate |].
  destruct (result tk); [| discriminate]. intros _. cbn [fst snd].
  rewrite written_app, written_wait, reads_app, reads_wait.
  repeat split.
Qed.

(** With the counter [length good] short of a positive [count], the loop
    consumes exactly the ticks of [good] and breaks. *)
Lemma cli_loop_good (repr : float -> string) (interval : Q) (count : Z)
  (good rest : list tick) :
  forallb is_good good = true ->
  good <> [] ->
  forall s,
    (Cli.samples_written s + Z.of_nat (List.length good) = count)%Z ->
    (0 <= Cli.samples_written s)%Z ->
    let out := Cli.loop repr interval count (good ++ rest) s in
    fst (fst out) = Cli.Break
    /\ written (snd (fst out)) = map (row_of repr) good
    /\ reads (snd (fst out)) = List.length good
    /\ List.length (deadlines (snd (fst out))) = List.length good
    /\ Cli.samples_written (snd out) = count.
Proof.
  induction good as [| tk good IH]; intros Hg Hne s Hc Hs; [contradiction |].
  cbn [forallb] in Hg. apply andb_prop in Hg. destruct Hg as [Htk Hg].
  cbv zeta. cbn [app Cli.loop].
  destruct (cli_body_good repr interval count tk s Htk) as (Hx & Hw & Hr & Hn).
  pose proof (cli_body_deadlines repr interval count tk s) as Hd.
  destruct (Cli.body repr interval count tk s) as [[x evs] s'].
  cbn [fst snd] in *. cbn [List.length] in Hc.
  destruct good as [| tk' good'].
  - cbn [List.length] in Hc.
    replace ((0 <? count)%Z) with true in Hx
      by (symmetry; apply Z.ltb_lt; lia).
    replace ((count <=? Cli.samples_written s + 1)%Z) with true in Hx
      by (symmetry; apply Z.leb_le; lia).
    cbn [andb] in Hx. subst x. cbn [fst snd map List.length].
    rewrite Hd. repeat split; try assumption. lia.
  - replace ((count <=? Cli.samples_written s + 1)%Z) with false in Hx
      by (symmetry; apply Z.leb_gt; cbn [List.length] in Hc; lia).
    rewrite andb_false_r in Hx. subst x.
    assert (Hne' : tk' :: good' <> []) by discriminate.
    specialize (IH Hg Hne' s').
    destruct IH as (Hx' & Hw' & Hr' & Hd' & Hn'); [lia | lia |].
    destruct (Cli.loop repr interval count ((tk' :: good') ++ rest) s')
      as [[x' evs'] s''].
    cbn [fst snd] in *.
    rewrite written_app, reads_app, deadlines_app, length_app, Hw, Hw', Hr, Hr',
      Hd, Hd'.
    repeat split; try assumption.
Qed.

Lemma Qle_bool_pos (q : Q) : 0 < q -> Qle_bool q 0 = false.
Proof.
  intros H. destruct (Qle_bool q 0) eqn:E; [| reflexivity].
  apply Qle_bool_iff in E. lra.
Qed.

(** A run of the CLI whose first [count] reads succeed. *)
Lemma cli_main_good (repr : float -> string) (a : Cli.Args)
  (e : Cli.env) (good rest : list tick) :
  0 < Cli.interval a ->
  Cli.e_serial_ok e = true ->
  (0 < Cli.count a)%Z ->
  Cli.e_ticks e = good ++ rest ->
  Z.of_nat (List.length good) = Cli.count a ->
  forallb is_good good = true ->
  let r := Cli.main repr a e in
  let p := Cli.out_path a e in
  Cli.r_exit r = Cli.Exit 0
  /\ Cli.r_written r = Cli.count a
  /\ reads (Cli.r_trace r) = List.length good
  /\ List.length (deadlines (Cli.r_trace r)) = List.length good
  /\ written (Cli.r_trace r) =
       (if negb (exists_ (Cli.e_fs e) p) && negb (Cli.append a)
        then [header] else []) ++ map (row_of repr) good
  /\ content (Cli.r_fs r) p = content (Cli.e_fs e) p ++ written (Cli.r_trace r)
  /\ exists tr, Cli.r_trace r = tr ++ [FileClose; ReaderClose].
Proof.
  intros Hi Hs Hc Ht Hn Hg. cbv zeta. unfold Cli.main.
  rewrite (Qle_bool_pos _ Hi), Hs, Ht. cbn [negb].
  destruct (open_rows (Cli.out_path a e) (Cli.append a) (Cli.e_fs e))
    as [[Hw Hp] _].
  destruct (cli_open_log_events (Cli.out_path a e) (Cli.append a) (Cli.e_fs e))
    as (Hd & Hr & Hpath).
  destruct (Cli.open_log _ _ _) as [[f d] opened]. cbn [fst snd] in *.
  assert (Hne : good <> []) by (intros ->; cbn in Hn; lia).
  pose proof (cli_loop_good repr (Cli.interval a) (Cli.count a) good rest
                Hg Hne (Cli.mkLoop (Cli.e_t0 e) (Cli.e_t0 e) 0 f d)) as HL.
  cbn [Cli.samples_written] in HL.
  destruct HL as (Hx & Hlw & Hlr & Hld & Hln); [lia | lia |].
  destruct (cli_loop_pending repr (Cli.interval a) (Cli.count a)
              (good ++ rest) (Cli.mkLoop (Cli.e_t0 e) (Cli.e_t0 e) 0 f d))
    as [Hlp Hlq].
  destruct (Cli.loop _ _ _ _ _) as [[x evs] s]. cbn [fst snd] in *.
  subst x. cbn [Cli.r_exit Cli.r_written Cli.r_trace Cli.r_fs Cli.csv Cli.disk] in *.
  assert (Hwr : written
                  (([MakeDirs (Cli.out_path a e); ReaderOpen] ++ opened ++ evs)
                   ++ [FileClose; ReaderClose])
                = written opened ++ written evs).
  { rewrite !written_app. cbn [written app]. now rewrite app_nil_r. }
  split; [reflexivity |]. split; [exact Hln |].
  split.
  { rewrite !reads_app, Hr, Hlr. cbn. lia. }
  split.
  { rewrite !deadlines_app, Hd. cbn [deadlines app List.length].
    rewrite app_nil_r. exact Hld. }
  split.
  { rewrite Hwr, Hw, Hlw. reflexivity. }
  split.
  { rewrite Hwr, <- Hpath, <- Hlp, content_fclose.
    fold (pending (Cli.csv s) (Cli.disk s)).
    rewrite Hlq, Hp, Hlp, Hpath, app_assoc. reflexivity. }
  eexists. reflexivity.
Qed.

(** C4: with a sample limit N > 0, an open port and reads that succeed,
    the CLI run takes exactly N passes through the loop (N waits, N
    reads), writes exactly N data rows, all of which are in the log file
    when [main] returns 0, and consumes nothing of what the environment
    would have offered afterwards. *)
Theorem sample_limit_is_exact (repr : float -> string) (a : Cli.Args)
  (e : Cli.env) (good rest : list tick) :
  0 < Cli.interval a ->
  Cli.e_serial_ok e = true ->
  (0 < Cli.count a)%Z ->
  Cli.e_ticks e = good ++ rest ->
  Z.of_nat (List.length good) = Cli.count a ->
  forallb is_good good = true ->
  let r := Cli.main repr a e in
  let p := Cli.out_path a e in
  Cli.r_exit r = Cli.Exit 0
  /\ Cli.r_written r = Cli.count a
  /\ reads (Cli.r_trace r) = List.length good
  /\ List.length (deadlines (Cli.r_trace r)) = List.length good
  /\ written (Cli.r_trace r) =
       (if negb (exists_ (Cli.e_fs e) p) && negb (Cli.append a)
        then [header] else []) ++ map (row_of repr) good
  /\ content (Cli.r_fs r) p = content (Cli.e_fs e) p ++ written (Cli.r_trace r)
  /\ exists tr, Cli.r_trace r = tr ++ [FileClose; ReaderClose].
Proof.
  intros Hi Hs Hc Ht Hn Hg.
  exact (cli_main_good repr a e good rest Hi Hs Hc Ht Hn Hg).
Qed.

Lemma sample_limit_is_exact_witness :
  Cli.r_exit (Cli.main repr0 demo_args demo_env) = Cli.Exit 0
  /\ Cli.r_written (Cli.main repr0 demo_args demo_env) = 2%Z
  /\ reads (Cli.r_trace (Cli.main repr0 demo_args demo_env)) = 2%nat.
Proof.
  pose proof (sample_limit_is_exact repr0 demo_args demo_env
                (firstn 2 demo_ticks) (skipn 2 demo_ticks)) as H.
  cbv zeta in H.
  destruct H as (Hx & Hw & Hr & _);
    [reflexivity | reflexivity | reflexivity | reflexivity | reflexivity
    | reflexivity |].
  split; [exact Hx |]. split; [exact Hw | exact Hr].
Defined.

(** ** Stopping the worker *)

Lemma after_stop_app (l1 l2 : list event) :
  after_stop (l1 ++ l2) =
  if has_stop l1 then after_stop l1 ++ l2 else after_stop l2.
Proof.
  induction l1 as [| ev l1 IH]; [reflexivity |].
  destruct ev; cbn; try exact IH. reflexivity.
Qed.

Lemma has_stop_app (l1 l2 : list event) :
  has_stop (l1 ++ l2) = has_stop l1 || has_stop l2.
Proof. apply existsb_app. Qed.

Lemma has_stop_wait (d n : Q) : has_stop (wait_events d n) = false.
Proof. unfold wait_events. now destruct (sleep_request d n). Qed.

(** Once [_stop] is set the [while] test fails: no pass is started. *)
Lemma worker_loop_stopped (interval : Q) (ticks : list Gui.gtick)
  (s : Gui.worker_state) :
  Gui.w_stop s = true -> Gui.worker_loop interval ticks s = (Gui.Stopped, []).
Proof. intros H. destruct ticks; cbn [Gui.worker_loop]; now rewrite H. Qed.

Lemma worker_loop_after_stop (interval : Q) (ticks : list Gui.gtick)
  (s : Gui.worker_state) :
  let out := Gui.worker_loop interval ticks s in
  (List.length (samples (after_stop (snd out))) <= 1)%nat
  /\ (has_stop (snd out) = true -> fst out <> Gui.Next).
Proof.
  revert s. induction ticks as [| g rest IH]; intros s; cbv zeta.
  - cbn [Gui.worker_loop]. destruct (Gui.w_stop s); cbn; split;
      try lia; discriminate.
  - cbn [Gui.worker_loop].
    destruct (Gui.w_stop s); [cbn; split; [lia | discriminate] |].
    unfold Gui.iteration.
    destruct (Gui.g_stop g); cbv beta iota zeta.
    + destruct (result (Gui.g_tick g)).
      * specialize (IH (Gui.mkWorker false (Gui.w_next_t s + interval)
                          (after_wait (Gui.w_next_t s) (Gui.w_now s)
                             (oversleep (Gui.g_tick g))
                           + latency (Gui.g_tick g)))).
        cbv zeta in IH.
        destruct (Gui.worker_loop interval rest _) as [x' evs'].
        cbn [fst snd] in *.
        rewrite !after_stop_app, !has_stop_app, has_stop_wait.
        cbn [has_stop existsb is_stop orb after_stop app]. exact IH.
      * cbn [fst snd].
        rewrite !after_stop_app, !has_stop_app, has_stop_wait.
        cbn. split; [lia | discriminate].
    + cbn. split; [lia | discriminate].
    + destruct (result (Gui.g_tick g)).
      * rewrite worker_loop_stopped by reflexivity. cbn [fst snd].
        rewrite app_nil_r, !after_stop_app, has_stop_wait.
        cbn. split; [lia | discriminate].
      * cbn [fst snd].
        rewrite !after_stop_app, has_stop_wait.
        cbn. split; [lia | discriminate].
Qed.

(** C6: whenever [stop()] is called during a run of the worker, at most
    one Sample is emitted after the call, and the loop is left for the
    teardown. The flag is read only by the [while] test: a call that
    arrives before the test lets no pass start, a call that arrives
    during a pass lets that pass finish and no other. *)
Theorem stop_allows_one_more_sample (port : string) (interval : Q)
  (serial_ok : bool) (t0 : Q) (ticks : list Gui.gtick) :
  (List.length
     (samples (after_stop (snd (Gui.run port interval serial_ok t0 ticks))))
   <= 1)%nat
  /\ (has_stop (snd (Gui.run port interval serial_ok t0 ticks)) = true ->
      fst (Gui.run port interval serial_ok t0 ticks) <> Gui.Next
      /\ exists body,
          snd (Gui.run port interval serial_ok t0 ticks)
          = body ++ Gui.teardown)
  /\ (forall rest s,
         Gui.w_stop s = true ->
         Gui.worker_loop interval rest s = (Gui.Stopped, []))
  /\ (forall g s,
         Gui.g_stop g = Gui.StopBeforeTest ->
         snd (fst (Gui.iteration interval g s)) = [StopRequest]
         /\ fst (fst (Gui.iteration interval g s)) = Gui.Stopped)
  /\ (forall g s,
         Gui.g_stop g = Gui.StopInFlight ->
         Gui.w_stop (snd (Gui.iteration interval g s)) = true
         /\ (List.length (samples (snd (fst (Gui.iteration interval g s))))
             <= 1)%nat).
Proof.
  split; [| split; [| split; [| split]]].
  - unfold Gui.run. destruct serial_ok; cbn [negb]; [| cbn; lia].
    destruct (worker_loop_after_stop interval ticks
                (Gui.mkWorker false t0 t0)) as [H _].
    destruct (Gui.worker_loop _ _ _) as [x evs]. cbn [snd] in H.
    destruct x; cbn [snd app after_stop];
      rewrite ?after_stop_app; destruct (has_stop evs) eqn:E;
      cbn [after_stop app]; rewrite ?samples_app; cbn [samples];
      rewrite ?app_nil_r; try exact H; cbn; lia.
  - unfold Gui.run. destruct serial_ok; cbn [negb]; [| discriminate].
    destruct (worker_loop_after_stop interval ticks
                (Gui.mkWorker false t0 t0)) as [_ H].
    destruct (Gui.worker_loop _ _ _) as [x evs]. cbn [fst snd] in H.
    destruct x; cbn [fst snd]; intros Hs.
    + exfalso. apply H; [| reflexivity].
      cbn in Hs. exact Hs.
    + split; [discriminate |]. eexists. reflexivity.
    + split; [discriminate |].
      exists ([ReaderOpen; SigStatus ("Running: " ++ port)] ++ evs
              ++ [SigError msg]).
      now rewrite <- !app_assoc.
  - intros rest s. apply worker_loop_stopped.
  - intros g s Hg. unfold Gui.iteration. rewrite Hg. split; reflexivity.
  - intros g s Hg. unfold Gui.iteration. rewrite Hg. cbv beta iota zeta.
    destruct (result (Gui.g_tick g)); cbn [fst snd Gui.w_stop];
      rewrite !samples_app, samples_wait; cbn; split; (reflexivity || lia).
Qed.

(** ** Release of the device and of the log *)

Lemma content_fclose_at (f : file) (d : fs) (p : path) :
  f_path f = p -> content (fclose f d) p = pending f d.
Proof. intros <-. apply content_fclose. Qed.

Lemma cli_main_releases (repr : float -> string) (a : Cli.Args) (e : Cli.env) :
  0 < Cli.interval a ->
  Cli.e_serial_ok e = true ->
  Cli.r_exit (Cli.main repr a e) <> Cli.Running ->
  (exists tr, Cli.r_trace (Cli.main repr a e) = tr ++ [FileClose; ReaderClose])
  /\ content (Cli.r_fs (Cli.main repr a e)) (Cli.out_path a e)
     = content (Cli.e_fs e) (Cli.out_path a e)
       ++ written (Cli.r_trace (Cli.main repr a e)).
Proof.
  intros Hi Hs. unfold Cli.main. rewrite (Qle_bool_pos _ Hi), Hs. cbn [negb].
  destruct (open_rows (Cli.out_path a e) (Cli.append a) (Cli.e_fs e))
    as [[_ Hp] _].
  destruct (cli_open_log_events (Cli.out_path a e) (Cli.append a) (Cli.e_fs e))
    as (_ & _ & Hpath).
  destruct (Cli.open_log _ _ _) as [[f d] opened]. cbn [fst snd] in *.
  destruct (cli_loop_pending repr (Cli.interval a) (Cli.count a)
              (Cli.e_ticks e) (Cli.mkLoop (Cli.e_t0 e) (Cli.e_t0 e) 0 f d))
    as [Hlp Hlq].
  destruct (Cli.loop _ _ _ _ _) as [[x evs] s].
  cbn [fst snd Cli.csv Cli.disk] in *.
  assert (Hrows : content (fclose (Cli.csv s) (Cli.disk s)) (Cli.out_path a e)
                  = content (Cli.e_fs e) (Cli.out_path a e)
                    ++ written
                         (([MakeDirs (Cli.out_path a e); ReaderOpen]
                           ++ opened ++ evs) ++ [FileClose; ReaderClose])).
  { rewrite (content_fclose_at _ _ (Cli.out_path a e)) by congruence.
    rewrite Hlq, Hp, !written_app. cbn [written app].
    now rewrite app_nil_r, app_assoc. }
  destruct x; cbn [Cli.r_exit Cli.r_trace Cli.r_fs]; intros Hx;
    try (split; [eexists; reflexivity | exact Hrows]).
  contradiction.
Qed.

Lemma gui_slot_rows (repr : float -> string) (p : path) (ev : event)
  (w : Gui.window) (d : fs) :
  log_at p w ->
  let out := Gui.slot repr ev w d in
  log_at p (fst (fst out))
  /\ log_rows (fst (fst out)) (snd (fst out)) p
     = log_rows w d p ++ written (snd out).
Proof.
  unfold log_at, log_rows. intros Hp. cbv zeta.
  destruct ev; cbn [Gui.slot fst snd written];
    try (rewrite app_nil_r; split; [exact Hp | reflexivity]).
  - unfold Gui.on_sample. destruct (Gui.csv_file w) as [f |];
      cbn [fst snd Gui.csv_file written].
    + rewrite pending_fflush, pending_fwrite. split; [exact Hp | reflexivity].
    + rewrite app_nil_r. split; [exact I | reflexivity].
  - unfold Gui.on_finished. destruct (Gui.csv_file w) as [f |];
      cbn [fst snd Gui.csv_file written]; rewrite app_nil_r.
    + split; [exact I |]. now apply content_fclose_at.
    + split; [exact I | reflexivity].
Qed.

Lemma gui_deliver_rows (repr : float -> string) (p : path)
  (evs : list event) (w : Gui.window) (d : fs) :
  log_at p w ->
  let out := Gui.deliver repr evs w d in
  log_at p (fst (fst out))
  /\ log_rows (fst (fst out)) (snd (fst out)) p
     = log_rows w d p ++ written (snd out).
Proof.
  revert w d. induction evs as [| ev rest IH]; intros w d Hp; cbv zeta.
  - cbn. rewrite app_nil_r. split; [exact Hp | reflexivity].
  - cbn [Gui.deliver].
    destruct (gui_slot_rows repr p ev w d Hp) as [Hp1 Hr1].
    destruct (Gui.slot repr ev w d) as [[w1 d1] out1]. cbn [fst snd] in *.
    destruct (IH w1 d1 Hp1) as [Hp2 Hr2].
    destruct (Gui.deliver repr rest w1 d1) as [[w2 d2] out2].
    cbn [fst snd] in *. split; [exact Hp2 |].
    rewrite Hr2, Hr1, written_app, app_assoc. reflexivity.
Qed.

Lemma gui_deliver_app (repr : float -> string) (l1 l2 : list event)
  (w : Gui.window) (d : fs) :
  Gui.deliver repr (l1 ++ l2) w d =
  let '(w1, d1, out1) := Gui.deliver repr l1 w d in
  let '(w2, d2, out2) := Gui.deliver repr l2 w1 d1 in
  (w2, d2, out1 ++ out2).
Proof.
  revert w d. induction l1 as [| ev l1 IH]; intros w d.
  - cbn. now destruct (Gui.deliver repr l2 w d) as [[w2 d2] out2].
  - cbn [app Gui.deliver].
    destruct (Gui.slot repr ev w d) as [[w1 d1] out1].
    rewrite IH.
    destruct (Gui.deliver repr l1 w1 d1) as [[w2 d2] out2].
    destruct (Gui.deliver repr l2 w2 d2) as [[w3 d3] out3].
    now rewrite app_assoc.
Qed.

(** After the worker's teardown has been handled the window holds no open
    file and no thread. *)
Lemma gui_teardown_closes (repr : float -> string) (body : list event)
  (w : Gui.window) (d : fs) :
  let w' := fst (fst (Gui.deliver repr (body ++ Gui.teardown) w d)) in
  Gui.csv_file w' = None /\ Gui.thread_active w' = false.
Proof.
  cbv zeta. rewrite gui_deliver_app.
  destruct (Gui.deliver repr body w d) as [[w1 d1] out1].
  cbn. split; reflexivity.
Qed.

(** Every run of the worker that has ended went through the teardown, and
    an error of the loop is signalled just before it. *)
Lemma gui_run_ends_with_teardown (port : string) (interval : Q)
  (serial_ok : bool) (t0 : Q) (ticks : list Gui.gtick) :
  fst (Gui.run port interval serial_ok t0 ticks) <> Gui.Next ->
  (exists body,
      snd (Gui.run port interval serial_ok t0 ticks) = body ++ Gui.teardown)
  /\ (forall msg,
         serial_ok = true ->
         fst (Gui.run port interval serial_ok t0 ticks) = Gui.Failed msg ->
         exists body,
           snd (Gui.run port interval serial_ok t0 ticks)
           = body ++ SigError msg :: Gui.teardown).
Proof.
  unfold Gui.run. destruct serial_ok; cbn [negb].
  - destruct (Gui.worker_loop _ _ _) as [x evs].
    destruct x; cbn [fst snd]; intros Hx.
    + contradiction.
    + split; [eexists; reflexivity | discriminate].
    + split.
      * exists ([ReaderOpen; SigStatus ("Running: " ++ port)] ++ evs
                ++ [SigError msg]).
        now rewrite <- !app_assoc.
      * intros msg' _ [= <-].
        exists ([ReaderOpen; SigStatus ("Running: " ++ port)] ++ evs).
        now rewrite <- !app_assoc.
  - intros _. split; [eexists; reflexivity | discriminate].
Qed.

Lemma gui_open_csv_path (p : path) (append : bool) (d : fs) :
  f_path (fst (fst (Gui._open_csv p append d))) = p.
Proof.
  unfold Gui._open_csv.
  now destruct (Gui.write_header_of append (exists_ d p)).
Qed.

(** What [start] leaves when it launches the worker. *)
Lemma gui_start_launched (fm : Gui.form) (w : Gui.window) (d : fs) :
  let p := strip (Gui.csv_path fm) in
  let out := Gui.start fm w d in
  match fst (fst (fst out)) with
  | Gui.Launched port i =>
      port = strip (Gui.port_text fm)
      /\ i = Gui.interval_spin (Gui.interval_asked fm)
      /\ Gui.thread_active w = false
      /\ log_at p (snd (fst (fst out)))
      /\ Gui.csv_file (snd (fst (fst out))) <> None
      /\ log_rows (snd (fst (fst out))) (snd (fst out)) p
         = (if Gui.append_chk fm && exists_ d p then content d p else [])
           ++ written (snd out)
      /\ written (snd out)
         = (if negb (Gui.append_chk fm && exists_ d p) then [header] else [])
  | _ => True
  end.
Proof.
  cbv zeta. unfold Gui.start.
  destruct (Gui.thread_active w); [exact I |].
  destruct (is_empty (strip (Gui.port_text fm))); [exact I |].
  destruct (is_empty (strip (Gui.csv_path fm))); [exact I |].
  destruct (open_rows (strip (Gui.csv_path fm)) (Gui.append_chk fm) d)
    as [_ [Hw Hp]].
  pose proof (gui_open_csv_path (strip (Gui.csv_path fm))
                (Gui.append_chk fm) d) as Hpath.
  destruct (Gui._open_csv _ _ _) as [[f d'] evs].
  cbn [fst snd] in *. unfold log_at, log_rows. cbn [Gui.csv_file].
  repeat split; try assumption. discriminate.
Qed.

Lemma in_loop_app (l1 l2 : list event) :
  in_loop l1 -> in_loop l2 -> in_loop (l1 ++ l2).
Proof.
  unfold in_loop. intros H1 H2. rewrite forallb_app, H1, H2. reflexivity.
Qed.

Lemma in_loop_wait (d n : Q) : in_loop (wait_events d n).
Proof. unfold in_loop, wait_events. now destruct (sleep_request d n). Qed.

Lemma worker_loop_in_loop (interval : Q) (ticks : list Gui.gtick)
  (s : Gui.worker_state) :
  in_loop (snd (Gui.worker_loop interval ticks s)).
Proof.
  revert s. induction ticks as [| g rest IH]; intros s.
  - cbn [Gui.worker_loop]. destruct (Gui.w_stop s); reflexivity.
  - cbn [Gui.worker_loop]. destruct (Gui.w_stop s); [reflexivity |].
    unfold Gui.iteration.
    destruct (Gui.g_stop g); cbv beta iota zeta; try reflexivity;
      destruct (result (Gui.g_tick g)); cbn [fst snd];
      try (match goal with
           | |- context [Gui.worker_loop ?i ?r ?s'] =>
               specialize (IH s'); destruct (Gui.worker_loop i r s') as [x' evs']
           end; cbn [fst snd] in *);
      repeat apply in_loop_app; try apply in_loop_wait; try assumption;
      reflexivity.
Qed.

(** While the log is open and no [SigFinished] arrives, the window writes
    one row per Sample, in the order of emission, and nothing else. *)
Lemma gui_deliver_in_loop (repr : float -> string) (evs : list event)
  (w : Gui.window) (d : fs) :
  in_loop evs ->
  Gui.csv_file w <> None ->
  let out := Gui.deliver repr evs w d in
  Gui.csv_file (fst (fst out)) <> None
  /\ written (snd out) = map (sample_row repr) (samples evs).
Proof.
  revert w d. induction evs as [| ev rest IH]; intros w d Hq Hw; cbv zeta.
  - split; [exact Hw | reflexivity].
  - unfold in_loop in Hq. cbn [forallb] in Hq. apply andb_prop in Hq.
    destruct Hq as [Hev Hq]. cbn [Gui.deliver].
    assert (Hs : Gui.csv_file (fst (fst (Gui.slot repr ev w d))) <> None
                 /\ written (snd (Gui.slot repr ev w d)) ++
                    map (sample_row repr) (samples rest)
                    = map (sample_row repr) (samples (ev :: rest))).
    { destruct ev; cbn [Gui.slot fst snd written samples app map];
        try (split; [exact Hw | reflexivity]); try discriminate Hev.
      unfold Gui.on_sample. destruct (Gui.csv_file w) as [f |];
        [| contradiction].
      cbn [fst snd Gui.csv_file written app]. split; [discriminate | reflexivity]. }
    destruct Hs as [Hs1 Hs2].
    destruct (Gui.slot repr ev w d) as [[w1 d1] out1]. cbn [fst snd] in *.
    destruct (IH w1 d1 Hq Hs1) as [H1 H2].
    destruct (Gui.deliver repr rest w1 d1) as [[w2 d2] out2].
    cbn [fst snd] in *. split; [exact H1 |].
    rewrite written_app, H2. exact Hs2.
Qed.

Lemma gui_deliver_no_samples (repr : float -> string) (evs : list event)
  (w : Gui.window) (d : fs) :
  samples evs = [] -> written (snd (Gui.deliver repr evs w d)) = [].
Proof.
  revert w d. induction evs as [| ev rest IH]; intros w d Hs; [reflexivity |].
  cbn [Gui.deliver].
  assert (H1 : written (snd (Gui.slot repr ev w d)) = [] /\ samples rest = []).
  { destruct ev; cbn [samples] in Hs; try discriminate Hs;
      cbn [Gui.slot snd written]; try (split; [reflexivity | exact Hs]).
    unfold Gui.on_finished. destruct (Gui.csv_file w);
      (split; [reflexivity | exact Hs]). }
  destruct H1 as [H1 H2].
  destruct (Gui.slot repr ev w d) as [[w1 d1] out1].
  specialize (IH w1 d1 H2).
  destruct (Gui.deliver repr rest w1 d1) as [[w2 d2] out2].
  cbn [fst snd] in *. now rewrite written_app, H1, IH.
Qed.

(** A run of the worker that has ended: what it emitted in the loop, then
    signals that carry no Sample and end with the teardown. *)
Lemma gui_run_shape (port : string) (interval : Q) (serial_ok : bool)
  (t0 : Q) (ticks : list Gui.gtick) :
  fst (Gui.run port interval serial_ok t0 ticks) <> Gui.Next ->
  exists pre post,
    snd (Gui.run port interval serial_ok t0 ticks) = pre ++ post
    /\ in_loop pre
    /\ samples post = [].
Proof.
  unfold Gui.run. destruct serial_ok; cbn [negb].
  - pose proof (worker_loop_in_loop interval ticks (Gui.mkWorker false t0 t0))
      as Hq.
    destruct (Gui.worker_loop _ _ _) as [x evs]. cbn [snd] in Hq.
    assert (Hpre : in_loop ([ReaderOpen; SigStatus ("Running: " ++ port)]
                            ++ evs))
      by (apply in_loop_app; [reflexivity | exact Hq]).
    destruct x; cbn [fst snd]; intros Hx.
    + contradiction.
    + eexists; eexists. split; [reflexivity |]. split; [exact Hpre | reflexivity].
    + eexists; eexists. split; [reflexivity |]. split; [exact Hpre | reflexivity].
  - intros _.
    exists [ReaderOpen; SigError ("Failed to open " ++ port ++ ". Is it in use?")].
    exists (SigFinished :: Gui.teardown).
    split; [reflexivity |]. split; reflexivity.
Qed.

(** A session whose worker has ended: the window holds no file and no
    thread, the log on disk is what the opening kept followed by every row
    the window wrote, and the rows written after the opening are those of
    the Samples the worker emitted, in order. *)
Lemma gui_session_ended (repr : float -> string) (fm : Gui.form)
  (serial_ok : bool) (t0 : Q) (ticks : list Gui.gtick) (w : Gui.window)
  (d : fs) :
  let r := Gui.session repr fm serial_ok t0 ticks w d in
  let p := strip (Gui.csv_path fm) in
  match Gui.launched r with
  | Gui.Launched port i =>
      fst (Gui.run port i serial_ok t0 ticks) <> Gui.Next ->
      Gui.worker_trace r = snd (Gui.run port i serial_ok t0 ticks)
      /\ Gui.csv_file (Gui.final r) = None
      /\ Gui.thread_active (Gui.final r) = false
      /\ content (Gui.final_fs r) p
         = (if Gui.append_chk fm && exists_ d p then content d p else [])
           ++ written (Gui.window_trace r)
      /\ written (Gui.window_trace r)
         = (if negb (Gui.append_chk fm && exists_ d p) then [header] else [])
           ++ map (sample_row repr) (samples (Gui.worker_trace r))
  | _ => True
  end.
Proof.
  cbv zeta. unfold Gui.session.
  pose proof (gui_start_launched fm w d) as Hst. cbv zeta in Hst.
  destruct (Gui.start fm w d) as [[[st w1] d1] evs1]. cbn [fst snd] in Hst.
  destruct st as [| | port i]; cbn [Gui.launched]; try exact I.
  destruct Hst as (_ & _ & _ & Hat & Hopen & Hrows & Hhead).
  cbv zeta.
  destruct (Gui.deliver repr (snd (Gui.run port i serial_ok t0 ticks)) w1 d1)
    as [[w2 d2] evs2] eqn:Hdel.
  cbn [Gui.launched Gui.worker_trace Gui.final Gui.final_fs Gui.window_trace].
  intros Hx.
  destruct (gui_run_ends_with_teardown port i serial_ok t0 ticks Hx)
    as [[body Hbody] _].
  destruct (gui_run_shape port i serial_ok t0 ticks Hx)
    as (pre & post & Hsplit & Hpre & Hpost).
  pose proof (gui_deliver_rows repr (strip (Gui.csv_path fm))
                (snd (Gui.run port i serial_ok t0 ticks)) w1 d1 Hat) as Hd.
  pose proof (gui_teardown_closes repr body w1 d1) as Hc.
  cbv zeta in Hd, Hc. rewrite <- Hbody in Hc.
  assert (Hwr : written (snd (Gui.deliver repr
                                (snd (Gui.run port i serial_ok t0 ticks)) w1 d1))
                = map (sample_row repr)
                      (samples (snd (Gui.run port i serial_ok t0 ticks)))).
  { rewrite Hsplit, gui_deliver_app.
    destruct (gui_deliver_in_loop repr pre w1 d1 Hpre Hopen) as [_ Hw1].
    destruct (Gui.deliver repr pre w1 d1) as [[wa da] outa].
    cbn [fst snd] in Hw1.
    pose proof (gui_deliver_no_samples repr post wa da Hpost) as Hw2.
    destruct (Gui.deliver repr post wa da) as [[wb db] outb].
    cbn [fst snd] in *.
    now rewrite written_app, samples_app, Hw1, Hw2, Hpost, !app_nil_r. }
  rewrite Hdel in Hd, Hc, Hwr. cbn [fst snd] in Hd, Hc, Hwr, Hrows, Hhead.
  destruct Hc as [Hc1 Hc2]. destruct Hd as [_ Hd].
  unfold log_rows in Hd at 1. rewrite Hc1 in Hd.
  split; [reflexivity |]. split; [exact Hc1 |]. split; [exact Hc2 |].
  split.
  - rewrite Hd, Hrows, written_app, app_assoc. reflexivity.
  - rewrite written_app, Hhead, Hwr. reflexivity.
Qed.




(** ** Round trip over the log *)

Lemma content_exists (d : fs) (p : path) :
  content d p <> [] -> exists_ d p = true.
Proof.
  unfold content, exists_. destruct (d p); [reflexivity | contradiction].
Qed.

(** C5: a fresh target written by a run of M samples without append and
    then by a run of M samples with append holds one header row followed
    by the 2M data rows in the order of emission, in the CLI and in the
    GUI. *)
Theorem log_round_trip (repr : float -> string) :
  (forall a1 e1 a2 e2 good1 rest1 good2 rest2 (M : nat),
      0 < Cli.interval a1 -> 0 < Cli.interval a2 ->
      Cli.e_serial_ok e1 = true -> Cli.e_serial_ok e2 = true ->
      (0 < M)%nat ->
      Cli.count a1 = Z.of_nat M -> Cli.count a2 = Z.of_nat M ->
      Cli.append a1 = false -> Cli.append a2 = true ->
      Cli.out_path a2 e2 = Cli.out_path a1 e1 ->
      exists_ (Cli.e_fs e1) (Cli.out_path a1 e1) = false ->
      Cli.e_fs e2 = Cli.r_fs (Cli.main repr a1 e1) ->
      Cli.e_ticks e1 = good1 ++ rest1 -> Cli.e_ticks e2 = good2 ++ rest2 ->
      List.length good1 = M -> List.length good2 = M ->
      forallb is_good good1 = true -> forallb is_good good2 = true ->
      content (Cli.r_fs (Cli.main repr a2 e2)) (Cli.out_path a1 e1)
      = header :: map (row_of repr) good1 ++ map (row_of repr) good2
      /\ List.length
           (content (Cli.r_fs (Cli.main repr a2 e2)) (Cli.out_path a1 e1))
         = S (M + M))
  /\ (forall fm1 fm2 ok1 ok2 t1 t2 ticks1 ticks2 w d,
         Gui.append_chk fm1 = false -> Gui.append_chk fm2 = true ->
         strip (Gui.csv_path fm2) = strip (Gui.csv_path fm1) ->
         exists_ d (strip (Gui.csv_path fm1)) = false ->
         let r1 := Gui.session repr fm1 ok1 t1 ticks1 w d in
         let r2 := Gui.session repr fm2 ok2 t2 ticks2
                               (Gui.final r1) (Gui.final_fs r1) in
         match Gui.launched r1, Gui.launched r2 with
         | Gui.Launched p1 i1, Gui.Launched p2 i2 =>
             fst (Gui.run p1 i1 ok1 t1 ticks1) <> Gui.Next ->
             fst (Gui.run p2 i2 ok2 t2 ticks2) <> Gui.Next ->
             content (Gui.final_fs r2) (strip (Gui.csv_path fm1))
             = header ::
               map (sample_row repr) (samples (Gui.worker_trace r1)) ++
               map (sample_row repr) (samples (Gui.worker_trace r2))
         | _, _ => True
         end).
Proof.
  split.
  - intros a1 e1 a2 e2 good1 rest1 good2 rest2 M Hi1 Hi2 Hs1 Hs2 HM Hc1 Hc2
      Ha1 Ha2 Hp Hfresh Hfs Ht1 Ht2 Hl1 Hl2 Hg1 Hg2.
    destruct (cli_main_good repr a1 e1 good1 rest1 Hi1 Hs1) as
      (_ & _ & _ & _ & Hw1 & Hd1 & _); try assumption; try lia.
    destruct (cli_main_good repr a2 e2 good2 rest2 Hi2 Hs2) as
      (_ & _ & _ & _ & Hw2 & Hd2 & _); try assumption; try lia.
    rewrite Hp, Hfs in Hd2. rewrite Ha2, andb_false_r in Hw2.
    rewrite Hfresh, Ha1 in Hw1. cbn [negb andb app] in Hw1, Hw2.
    rewrite (content_absent _ _ Hfresh), Hw1 in Hd1. cbn [app] in Hd1.
    assert (E : content (Cli.r_fs (Cli.main repr a2 e2)) (Cli.out_path a1 e1)
                = header :: map (row_of repr) good1 ++ map (row_of repr) good2).
    { rewrite Hd2, Hd1, Hw2. reflexivity. }
    split; [exact E |].
    rewrite E. cbn [List.length]. rewrite length_app, !length_map. lia.
  - intros fm1 fm2 ok1 ok2 t1 t2 ticks1 ticks2 w d Ha1 Ha2 Hp Hfresh.
    pose proof (gui_session_ended repr fm1 ok1 t1 ticks1 w d) as H1.
    cbv zeta in *.
    set (r1 := Gui.session repr fm1 ok1 t1 ticks1 w d) in *.
    pose proof (gui_session_ended repr fm2 ok2 t2 ticks2
                  (Gui.final r1) (Gui.final_fs r1)) as H2.
    cbv zeta in H2.
    set (r2 := Gui.session repr fm2 ok2 t2 ticks2
                 (Gui.final r1) (Gui.final_fs r1)) in *.
    destruct (Gui.launched r1) as [| | p1 i1]; try exact I.
    destruct (Gui.launched r2) as [| | p2 i2]; try exact I.
    intros Hx1 Hx2.
    destruct (H1 Hx1) as (_ & _ & _ & Hd1 & Hw1).
    destruct (H2 Hx2) as (_ & _ & _ & Hd2 & Hw2).
    rewrite Ha1, Hfresh in Hd1, Hw1. cbn [andb negb app] in Hd1, Hw1.
    rewrite Hw1 in Hd1. cbn [app] in Hd1.
    rewrite Hp, Ha2 in Hd2, Hw2.
    assert (Hex : exists_ (Gui.final_fs r1) (strip (Gui.csv_path fm1)) = true)
      by (apply content_exists; rewrite Hd1; discriminate).
    rewrite Hex in Hd2, Hw2. cbn [andb negb app] in Hd2, Hw2.
    rewrite Hd2, Hd1, Hw2. reflexivity.
Qed.

Lemma log_round_trip_witness :
  content (Cli.r_fs (Cli.main repr0 demo_args_append demo_env_again)) "log.csv"
  = header :: map (row_of repr0) (firstn 2 demo_ticks)
           ++ map (row_of repr0) (firstn 2 demo_ticks).
Proof.
  refine (proj1 (proj1 (log_round_trip repr0)
                   demo_args demo_env demo_args_append demo_env_again
                   (firstn 2 demo_ticks) (skipn 2 demo_ticks)
                   (firstn 2 demo_ticks) (skipn 2 demo_ticks) 2%nat
                   _ _ _ _ _ _ _ _ _ _ _ _ _ _ _ _ _ _));
    try reflexivity.
  lia.
Defined.

(** ** The live buffers over a whole session *)

Lemma four_lists {A : Type} (l : list A) :
  List.length l = 4%nat -> exists a b c d, l = [a; b; c; d].
Proof.
  destruct l as [| a [| b [| c [| d [| e l]]]]]; try discriminate.
  intros _. now exists a, b, c, d.
Qed.

Lemma on_sample_keeps_buffers (repr : float -> string) (s : Sample)
  (w : Gui.window) (d : fs) :
  buffers_ok w -> buffers_ok (fst (fst (Gui.on_sample repr s w d))).
Proof.
  intros (H4 & Hall & _).
  destruct (four_lists _ H4) as (y1 & y2 & y3 & y4 & Hy).
  rewrite Hy in Hall.
  inversion Hall as [| ? ? E1 Hall1]; subst.
  inversion Hall1 as [| ? ? E2 Hall2]; subst.
  inversion Hall2 as [| ? ? E3 Hall3]; subst.
  inversion Hall3 as [| ? ? E4 _]; subst.
  destruct (on_sample_buffers repr s w d y1 y2 y3 y4 Hy E1 E2 E3 E4)
    as (Hm & _ & Hys & Hle & Hf & _).
  unfold buffers_ok. rewrite Hm. split; [now rewrite Hys |].
  split; assumption.
Qed.

Lemma deliver_keeps_buffers (repr : float -> string) (evs : list event)
  (w : Gui.window) (d : fs) :
  buffers_ok w -> buffers_ok (fst (fst (Gui.deliver repr evs w d))).
Proof.
  revert w d. induction evs as [| ev rest IH]; intros w d Hw; [exact Hw |].
  cbn [Gui.deliver].
  assert (H1 : buffers_ok (fst (fst (Gui.slot repr ev w d)))).
  { destruct ev; cbn [Gui.slot fst]; try exact Hw.
    now apply on_sample_keeps_buffers. }
  destruct (Gui.slot repr ev w d) as [[w1 d1] out1]. cbn [fst] in H1.
  specialize (IH w1 d1 H1).
  destruct (Gui.deliver repr rest w1 d1) as [[w2 d2] out2]. exact IH.
Qed.

Lemma start_keeps_buffers (fm : Gui.form) (w : Gui.window) (d : fs) :
  List.length (Gui.y w) = 4%nat ->
  match fst (fst (fst (Gui.start fm w d))) with
  | Gui.Launched _ _ => buffers_ok (snd (fst (fst (Gui.start fm w d))))
  | _ => snd (fst (fst (Gui.start fm w d))) = w
  end.
Proof.
  intros H4. destruct (four_lists _ H4) as (y1 & y2 & y3 & y4 & Hy).
  unfold Gui.start.
  destruct (Gui.thread_active w); [reflexivity |].
  destruct (is_empty (strip (Gui.port_text fm))); [reflexivity |].
  destruct (is_empty (strip (Gui.csv_path fm))); [reflexivity |].
  destruct (Gui._open_csv _ _ _) as [[f d'] evs]. cbn [fst snd].
  rewrite Hy. unfold buffers_ok. cbn.
  split; [reflexivity |]. split; [repeat constructor | lia].
Qed.

(** C9: when the four channel buffers are as long as the x axis,
    [on_sample] appends the new point to each and then drops from the front
    what exceeds [max_points]: afterwards each buffer holds at most
    [max_points] entries, all have the length of the x axis, the oldest
    entries are the ones dropped, and an unknown reading is stored as NaN,
    which is not 0 and differs from every reading that is a number. That
    shape is what [start] sets up and what every signal handled by the
    window keeps. *)
Theorem live_buffers_bounded (repr : float -> string) (s : Sample)
  (w : Gui.window) (d : fs) (y1 y2 y3 y4 : list float) :
  Gui.y w = [y1; y2; y3; y4] ->
  List.length y1 = List.length (Gui.x w) ->
  List.length y2 = List.length (Gui.x w) ->
  List.length y3 = List.length (Gui.x w) ->
  List.length y4 = List.length (Gui.x w) ->
  let w' := fst (fst (Gui.on_sample repr s w d)) in
  let drop := (List.length (Gui.x w) + 1 - Gui.max_points w)%nat in
  Gui.max_points w' = Gui.max_points w
  /\ Gui.x w' = skipn drop (Gui.x w ++ [Gui.idx w])
  /\ Gui.y w' = [skipn drop (y1 ++ [Gui.plot_value (s_ch1 s)]);
                 skipn drop (y2 ++ [Gui.plot_value (s_ch2 s)]);
                 skipn drop (y3 ++ [Gui.plot_value (s_ch3 s)]);
                 skipn drop (y4 ++ [Gui.plot_value (s_ch4 s)])]
  /\ (List.length (Gui.x w') <= Gui.max_points w)%nat
  /\ Forall (fun yi => List.length yi = List.length (Gui.x w')) (Gui.y w')
  /\ Gui.plot_value None = PrimFloat.nan
  /\ PrimFloat.is_nan (Gui.plot_value None) = true
  /\ Gui.plot_value None <> PrimFloat.zero
  /\ (forall v, PrimFloat.is_nan v = false ->
                Gui.plot_value (Some v) <> Gui.plot_value None)
  /\ (forall evs,
         buffers_ok w -> buffers_ok (fst (fst (Gui.deliver repr evs w d))))
  /\ (forall fm serial_ok t0 ticks,
         match Gui.launched (Gui.session repr fm serial_ok t0 ticks w d) with
         | Gui.Launched _ _ =>
             buffers_ok (Gui.final (Gui.session repr fm serial_ok t0 ticks w d))
         | _ => True
         end).
Proof.
  intros Hy H1 H2 H3 H4 w' drop.
  destruct (on_sample_buffers repr s w d y1 y2 y3 y4 Hy H1 H2 H3 H4)
    as (A1 & A2 & A3 & A4 & A5 & A6 & A7 & A8 & A9).
  repeat (split; [assumption |]).
  split.
  - intros evs. apply deliver_keeps_buffers.
  - intros fm serial_ok t0 ticks. unfold Gui.session.
    assert (Hlen : List.length (Gui.y w) = 4%nat) by now rewrite Hy.
    pose proof (start_keeps_buffers fm w d Hlen) as Hs.
    destruct (Gui.start fm w d) as [[[st w1] d1] evs1]. cbn [fst snd] in Hs.
    destruct st as [| | port i]; cbn [Gui.launched]; try exact I.
    pose proof (deliver_keeps_buffers repr
                  (snd (Gui.run port i serial_ok t0 ticks)) w1 d1 Hs) as Hd.
    destruct (Gui.deliver repr _ w1 d1) as [[w2 d2] evs2]. exact Hd.
Qed.

Lemma live_buffers_bounded_witness :
  Gui.x (fst (fst (Gui.on_sample repr0 demo_sample Gui.init no_files)))
    = [0%nat]
  /\ Gui.y (fst (fst (Gui.on_sample repr0 demo_sample Gui.init no_files)))
    = [[PrimFloat.one]; [PrimFloat.nan]; [PrimFloat.nan]; [PrimFloat.nan]].
Proof.
  pose proof (live_buffers_bounded repr0 demo_sample
                Gui.init no_files [] [] [] []
                eq_refl eq_refl eq_refl eq_refl eq_refl) as H.
  cbv zeta in H. destruct H as (_ & Hx & Hy & _).
  split; [exact Hx | exact Hy].
Defined.

(** ** Worked runs *)

(** [--interval 1 --count 2] on a fresh [log.csv]: a header and two rows,
    the second from a read that was too short. *)
Example cli_demo_log :
  Cli.r_exit (Cli.main repr0 demo_args demo_env) = Cli.Exit 0
  /\ content (Cli.r_fs (Cli.main repr0 demo_args demo_env)) "log.csv"
     = [header;
        ["2024-05-01 12:00:01"; "20.5"; ""; "20.5"; "20.5"];
        ["2024-05-01 12:00:02"; ""; ""; ""; ""]].
Proof. split; reflexivity. Qed.

(** The same device behind the GUI, stopped before the third pass. *)
Example gui_demo_log :
  content
    (Gui.final_fs
       (Gui.session repr0 demo_form true 0 two_then_stop Gui.init no_files))
    "log.csv"
  = [header;
     ["2024-05-01 12:00:01"; "20.5"; ""; "20.5"; "20.5"];
     ["2024-05-01 12:00:02"; ""; ""; ""; ""]]
  /\ Gui.x (Gui.final
              (Gui.session repr0 demo_form true 0 two_then_stop
                           Gui.init no_files))
     = [0%nat; 1%nat].
Proof. split; reflexivity. Qed.

(** A read that overruns by more than an interval: the deadlines stay on
    the grid 0, 1, 2, 3; the passes for the deadlines already past follow
    without a sleep, and the next sleep is the half interval that is left. *)
Example overrun_keeps_the_grid :
  map Qred
      (deadlines
         (Cli.r_trace
            (Cli.main repr0 (Cli.mkArgs "COM3" 9600 1 4 "log.csv" false)
                      (Cli.mkEnv no_files "default.csv" true 0 slow_ticks))))
  = [0; 1; 2; 3]
  /\ map Qred
         (sleeps
            (Cli.r_trace
               (Cli.main repr0 (Cli.mkArgs "COM3" 9600 1 4 "log.csv" false)
                         (Cli.mkEnv no_files "default.csv" true 0 slow_ticks))))
     = [1 # 2].
Proof. split; reflexivity. Qed.

(* ================================================================== *)
(** * Further properties of the CLI run *)

(** A stretch of reads that succeed and do not reach the limit: the loop
    goes through all of them and carries on with what follows. *)
Lemma cli_loop_through (repr : float -> string) (interval : Q) (count : Z)
  (good : list tick) :
  forallb is_good good = true ->
  forall s,
    (count <= 0 \/ Cli.samples_written s + Z.of_nat (List.length good) < count)%Z ->
    exists evs1 s1,
      written evs1 = map (row_of repr) good
      /\ reads evs1 = List.length good
      /\ Cli.samples_written s1
         = (Cli.samples_written s + Z.of_nat (List.length good))%Z
      /\ forall rest,
          Cli.loop repr interval count (good ++ rest) s =
          let '(x, evs2, s2) := Cli.loop repr interval count rest s1 in
          (x, evs1 ++ evs2, s2).
Proof.
  induction good as [| tk good IH]; intros Hg s Hc.
  - exists [], s. cbn. repeat split; try lia.
    intros rest. now destruct (Cli.loop repr interval count rest s) as [[x e2] s2].
  - cbn [forallb] in Hg. apply andb_prop in Hg. destruct Hg as [Htk Hg].
    destruct (cli_body_good repr interval count tk s Htk) as (Hx & Hw & Hr & Hn).
    cbn [List.length] in Hc.
    assert (Hcont : fst (fst (Cli.body repr interval count tk s)) = Cli.Continue).
    { rewrite Hx. destruct (Z.ltb_spec 0 count) as [Hpos | Hneg];
        [| reflexivity].
      replace ((count <=? Cli.samples_written s + 1)%Z) with false
        by (symmetry; apply Z.leb_gt; lia).
      reflexivity. }
    destruct (Cli.body repr interval count tk s) as [[x evs] s'] eqn:Hb.
    cbn [fst snd] in *. clear Hx. subst x.
    destruct (IH Hg s') as (evs1 & s1 & Hw1 & Hr1 & Hn1 & Hrest); [lia |].
    exists (evs ++ evs1), s1.
    rewrite written_app, reads_app, Hw, Hw1, Hr, Hr1, Hn1, Hn.
    cbn [map app List.length].
    split; [reflexivity |]. split; [reflexivity |]. split; [lia |].
    intros rest. cbn [app Cli.loop]. rewrite Hb. cbv beta iota zeta.
    rewrite Hrest.
    destruct (Cli.loop repr interval count rest s1) as [[x2 evs2] s2].
    now rewrite <- app_assoc.
Qed.

(** The shape of a started run in terms of its loop. *)
Lemma cli_main_started (repr : float -> string) (a : Cli.Args) (e : Cli.env) :
  0 < Cli.interval a ->
  Cli.e_serial_ok e = true ->
  exists f d opened,
    Cli.open_log (Cli.out_path a e) (Cli.append a) (Cli.e_fs e)
    = (f, d, opened)
    /\ forall x evs s,
        Cli.loop repr (Cli.interval a) (Cli.count a) (Cli.e_ticks e)
                 (Cli.mkLoop (Cli.e_t0 e) (Cli.e_t0 e) 0 f d) = (x, evs, s) ->
        Cli.r_written (Cli.main repr a e) = Cli.samples_written s
        /\ written (Cli.r_trace (Cli.main repr a e))
           = written opened ++ written evs
        /\ reads (Cli.r_trace (Cli.main repr a e)) = reads evs
        /\ Cli.r_exit (Cli.main repr a e) =
           match x with
           | Cli.Continue => Cli.Running
           | Cli.Break | Cli.KeyboardInterrupt => Cli.Exit 0
           | Cli.Raised msg => Cli.Raise msg
           end
        /\ Cli.r_fs (Cli.main repr a e) =
           match x with
           | Cli.Continue => Cli.disk s
           | _ => fclose (Cli.csv s) (Cli.disk s)
           end.
Proof.
  intros Hi Hs. unfold Cli.main. rewrite (Qle_bool_pos _ Hi), Hs. cbn [negb].
  destruct (cli_open_log_events (Cli.out_path a e) (Cli.append a) (Cli.e_fs e))
    as (_ & Hr & _).
  destruct (Cli.open_log _ _ _) as [[f d] opened]. cbn [snd] in Hr.
  exists f, d, opened. split; [reflexivity |].
  intros x evs s ->.
  destruct x; cbn [Cli.r_written Cli.r_trace Cli.r_exit Cli.r_fs];
    rewrite !written_app, !reads_app, Hr; cbn [written reads app];
    rewrite ?app_nil_r; repeat split; cbn; lia.
Qed.

Lemma cli_body_counter (repr : float -> string) (interval : Q) (count : Z)
  (tk : tick) (s : Cli.loop_state) :
  let out := Cli.body repr interval count tk s in
  Cli.samples_written (snd out)
  = (Cli.samples_written s + Z.of_nat (List.length (written (snd (fst out)))))%Z
  /\ (fst (fst out) = Cli.Continue -> f_buf (Cli.csv (snd out)) = []).
Proof.
  cbv zeta. unfold Cli.body. destruct (interrupt tk); cbn [fst snd].
  - rewrite written_wait. cbn. split; [lia | discriminate].
  - destruct (result tk); cbn [fst snd Cli.samples_written Cli.csv];
      rewrite written_app, written_wait; cbn; split; try lia;
      try discriminate; reflexivity.
Qed.

Lemma cli_loop_counter (repr : float -> string) (interval : Q) (count : Z)
  (ticks : list tick) (s : Cli.loop_state) :
  let out := Cli.loop repr interval count ticks s in
  Cli.samples_written (snd out)
  = (Cli.samples_written s + Z.of_nat (List.length (written (snd (fst out)))))%Z
  /\ (fst (fst out) = Cli.Continue -> ticks <> [] ->
      f_buf (Cli.csv (snd out)) = []).
Proof.
  revert s. induction ticks as [| tk rest IH]; intros s; cbv zeta.
  - cbn. split; [lia | intros _ H; contradiction].
  - cbn [Cli.loop].
    destruct (cli_body_counter repr interval count tk s) as [Hn Hf].
    destruct (Cli.body repr interval count tk s) as [[x evs] s'].
    cbn [fst snd] in *.
    destruct x; cbn [fst snd]; try (split; [exact Hn | discriminate]).
    destruct (IH s') as [Hn' Hf'].
    destruct (Cli.loop repr interval count rest s') as [[x' evs'] s''] eqn:Hl.
    cbn [fst snd] in *. split.
    + rewrite Hn', Hn, written_app, length_app. lia.
    + intros Hx _. destruct rest as [| tk' rest'].
      * cbn in Hl. injection Hl as <- <- <-. now apply Hf.
      * apply Hf'; [exact Hx | discriminate].
Qed.

(** When the serial port does not open, the CLI prints one error and
    returns 1; the log file is neither created nor opened, the loop is not
    entered and nothing is written. *)
Lemma cli_port_failure_leaves_files (repr : float -> string)
  (a : Cli.Args) (e : Cli.env) :
  0 < Cli.interval a ->
  Cli.e_serial_ok e = false ->
  Cli.main repr a e =
  Cli.mkRun (Cli.Exit 1)
            [MakeDirs (Cli.out_path a e); ReaderOpen;
             Stderr ("ERROR: Failed to open serial port " ++ Cli.port a)]
            (Cli.e_fs e) 0.
Proof.
  intros Hi Hs. unfold Cli.main. now rewrite (Qle_bool_pos _ Hi), Hs.
Qed.


(** X2: with a count that is zero or negative the CLI never leaves the
    loop by itself: however many reads succeed, the run is still going,
    the counter equals the number of reads and every read gave one row. *)
Theorem cli_zero_count_runs_on (repr : float -> string)
  (a : Cli.Args) (e : Cli.env) :
  0 < Cli.interval a ->
  Cli.e_serial_ok e = true ->
  (Cli.count a <= 0)%Z ->
  forallb is_good (Cli.e_ticks e) = true ->
  Cli.r_exit (Cli.main repr a e) = Cli.Running
  /\ Cli.r_written (Cli.main repr a e) = Z.of_nat (List.length (Cli.e_ticks e))
  /\ reads (Cli.r_trace (Cli.main repr a e)) = List.length (Cli.e_ticks e)
  /\ written (Cli.r_trace (Cli.main repr a e))
     = (if negb (exists_ (Cli.e_fs e) (Cli.out_path a e))
           && negb (Cli.append a)
        then [header] else [])
       ++ map (row_of repr) (Cli.e_ticks e).
Proof.
  intros Hi Hs Hc Hg.
  destruct (cli_main_started repr a e Hi Hs) as (f & d & opened & Ho & Hm).
  destruct (open_rows (Cli.out_path a e) (Cli.append a) (Cli.e_fs e))
    as [[Hw _] _].
  rewrite Ho in Hw. cbn [snd] in Hw.
  destruct (cli_loop_through repr (Cli.interval a) (Cli.count a)
              (Cli.e_ticks e) Hg
              (Cli.mkLoop (Cli.e_t0 e) (Cli.e_t0 e) 0 f d))
    as (evs1 & s1 & Hw1 & Hr1 & Hn1 & Hrest); [left; exact Hc |].
  specialize (Hrest []). rewrite app_nil_r in Hrest. cbn in Hrest.
  destruct (Hm _ _ _ Hrest) as (Hwr & Htr & Hrd & Hex & _).
  rewrite Hex, Hwr, Htr, Hrd, Hn1, !written_app, !reads_app, Hw, Hw1, Hr1.
  cbn [Cli.samples_written written reads app].
  rewrite !app_nil_r. repeat split; cbn; lia.
Qed.

Lemma cli_zero_count_runs_on_witness :
  Cli.r_exit
    (Cli.main repr0 (Cli.mkArgs "COM3" 9600 1 0 "log.csv" false) demo_env)
  = Cli.Running
  /\ Cli.r_written
       (Cli.main repr0 (Cli.mkArgs "COM3" 9600 1 0 "log.csv" false) demo_env)
     = 3%Z.
Proof.
  pose proof (cli_zero_count_runs_on repr0
                (Cli.mkArgs "COM3" 9600 1 0 "log.csv" false) demo_env) as H.
  destruct H as (Hx & Hw & _);
    [reflexivity | reflexivity | cbn; lia | reflexivity |].
  split; [exact Hx | exact Hw].
Defined.

(** X3: while the CLI run is going, every row it has written, the header
    included, is on disk as soon as one pass has completed; before the
    first pass the header is still in the file's buffer and the disk holds
    what it held. *)
Theorem cli_rows_on_disk_while_running (repr : float -> string)
  (a : Cli.Args) (e : Cli.env) :
  0 < Cli.interval a ->
  Cli.e_serial_ok e = true ->
  Cli.r_exit (Cli.main repr a e) = Cli.Running ->
  (Cli.e_ticks e <> [] ->
   content (Cli.r_fs (Cli.main repr a e)) (Cli.out_path a e)
   = content (Cli.e_fs e) (Cli.out_path a e)
     ++ written (Cli.r_trace (Cli.main repr a e)))
  /\ (Cli.e_ticks e = [] ->
      content (Cli.r_fs (Cli.main repr a e)) (Cli.out_path a e)
      = content (Cli.e_fs e) (Cli.out_path a e)).
Proof.
  intros Hi Hs Hrun.
  destruct (cli_main_started repr a e Hi Hs) as (f & d & opened & Ho & Hm).
  destruct (open_rows (Cli.out_path a e) (Cli.append a) (Cli.e_fs e))
    as [[Hw Hp] _].
  destruct (cli_open_log_events (Cli.out_path a e) (Cli.append a) (Cli.e_fs e))
    as (_ & _ & Hpath).
  rewrite Ho in Hw, Hp, Hpath. cbn [fst snd] in Hw, Hp, Hpath.
  pose proof (cli_loop_pending repr (Cli.interval a) (Cli.count a)
                (Cli.e_ticks e) (Cli.mkLoop (Cli.e_t0 e) (Cli.e_t0 e) 0 f d))
    as Hlp.
  pose proof (cli_loop_counter repr (Cli.interval a) (Cli.count a)
                (Cli.e_ticks e) (Cli.mkLoop (Cli.e_t0 e) (Cli.e_t0 e) 0 f d))
    as Hlc.
  cbv zeta in Hlp, Hlc.
  destruct (Cli.loop _ _ _ _ _) as [[x evs] s] eqn:Hl.
  cbn [fst snd Cli.csv Cli.disk] in Hlp, Hlc.
  destruct (Hm _ _ _ eq_refl) as (_ & Htr & _ & Hex & Hfs).
  rewrite Hex in Hrun. destruct x; try discriminate Hrun.
  destruct Hlp as [Hpath' Hpend]. destruct Hlc as [_ Hbuf].
  rewrite Hfs, Htr. split.
  - intros Hne. specialize (Hbuf eq_refl Hne).
    unfold pending in Hpend at 1. rewrite Hbuf, app_nil_r, Hpath', Hpath in Hpend.
    rewrite Hpend, Hp, app_assoc. reflexivity.
  - intros Hnil. rewrite Hnil in Hl. cbn in Hl. injection Hl as <- <-.
    cbn [Cli.disk].
    unfold Cli.open_log, Cli.write_header_of, Cli.open_mode_of in Ho.
    destruct (Cli.append a), (exists_ (Cli.e_fs e) (Cli.out_path a e)) eqn:E;
      cbn [orb negb] in Ho; injection Ho as <- <- <-;
      rewrite ?E, ?content_set; try reflexivity;
      symmetry; now apply content_absent.
Qed.

Lemma cli_rows_on_disk_while_running_witness :
  content
    (Cli.r_fs
       (Cli.main repr0 (Cli.mkArgs "COM3" 9600 1 0 "log.csv" false) demo_env))
    "log.csv"
  = content no_files "log.csv"
    ++ written
         (Cli.r_trace
            (Cli.main repr0 (Cli.mkArgs "COM3" 9600 1 0 "log.csv" false)
                      demo_env)).
Proof.
  refine (proj1 (cli_rows_on_disk_while_running repr0
                   (Cli.mkArgs "COM3" 9600 1 0 "log.csv" false) demo_env
                   _ _ _) _).
  - reflexivity.
  - reflexivity.
  - reflexivity.
  - discriminate.
Defined.



(** The rows of a run that ended after [good] reads that succeeded. *)
Lemma cli_ended_after (repr : float -> string) (a : Cli.Args) (e : Cli.env)
  (good : list tick) (tk : tick) (rest : list tick) (x : Cli.flow) :
  0 < Cli.interval a ->
  Cli.e_serial_ok e = true ->
  Cli.e_ticks e = good ++ tk :: rest ->
  forallb is_good good = true ->
  (Cli.count a <= 0 \/ Z.of_nat (List.length good) < Cli.count a)%Z ->
  (forall s,
      fst (fst (Cli.body repr (Cli.interval a) (Cli.count a) tk s)) = x
      /\ written (snd (fst (Cli.body repr (Cli.interval a) (Cli.count a) tk s)))
         = []) ->
  x <> Cli.Continue ->
  Cli.r_exit (Cli.main repr a e) =
    match x with
    | Cli.Raised msg => Cli.Raise msg
    | _ => Cli.Exit 0
    end
  /\ Cli.r_written (Cli.main repr a e) = Z.of_nat (List.length good)
  /\ content (Cli.r_fs (Cli.main repr a e)) (Cli.out_path a e)
     = content (Cli.e_fs e) (Cli.out_path a e)
       ++ (if negb (exists_ (Cli.e_fs e) (Cli.out_path a e))
              && negb (Cli.append a)
           then [header] else [])
       ++ map (row_of repr) good.
Proof.
  intros Hi Hs Ht Hg Hc Hb Hx.
  destruct (cli_main_started repr a e Hi Hs) as (f & d & opened & Ho & Hm).
  destruct (open_rows (Cli.out_path a e) (Cli.append a) (Cli.e_fs e))
    as [[Hw _] _].
  rewrite Ho in Hw. cbn [snd] in Hw.
  destruct (cli_loop_through repr (Cli.interval a) (Cli.count a) good Hg
              (Cli.mkLoop (Cli.e_t0 e) (Cli.e_t0 e) 0 f d))
    as (evs1 & s1 & Hw1 & _ & Hn1 & Hrest);
    [cbn [Cli.samples_written]; lia |].
  specialize (Hrest (tk :: rest)). rewrite <- Ht in Hrest.
  cbn [Cli.loop] in Hrest. destruct (Hb s1) as [Hbx Hbw].
  pose proof (cli_body_counter repr (Cli.interval a) (Cli.count a) tk s1)
    as [Hbn _].
  destruct (Cli.body repr (Cli.interval a) (Cli.count a) tk s1)
    as [[x1 evs2] s2].
  cbn [fst snd] in Hbx, Hbw, Hbn. subst x1.
  rewrite Hbw in Hbn. cbn in Hbn.
  assert (Hloop : Cli.loop repr (Cli.interval a) (Cli.count a) (Cli.e_ticks e)
                    (Cli.mkLoop (Cli.e_t0 e) (Cli.e_t0 e) 0 f d)
                  = (x, evs1 ++ evs2, s2))
    by (rewrite Hrest; destruct x; try reflexivity; contradiction).
  destruct (Hm _ _ _ Hloop) as (Hwr & Htr & _ & Hex & _).
  assert (Hend : Cli.r_exit (Cli.main repr a e) <> Cli.Running)
    by (rewrite Hex; destruct x; try discriminate; contradiction).
  destruct (cli_main_releases repr a e Hi Hs Hend) as [_ Hcont].
  rewrite Hcont, Htr, Hw, Hwr, written_app, Hw1, Hbw, app_nil_r.
  split; [rewrite Hex; now destruct x |].
  split; [rewrite Hbn, Hn1; cbn; lia | reflexivity].
Qed.

(** X5: Ctrl+C while the CLI waits for its next pass ends the run with
    exit code 0; file and reader are closed and the log holds every row
    of the passes completed before. *)
Theorem cli_interrupt_keeps_rows (repr : float -> string)
  (a : Cli.Args) (e : Cli.env) (good : list tick) (tk : tick)
  (rest : list tick) :
  0 < Cli.interval a ->
  Cli.e_serial_ok e = true ->
  Cli.e_ticks e = good ++ tk :: rest ->
  forallb is_good good = true ->
  (Cli.count a <= 0 \/ Z.of_nat (List.length good) < Cli.count a)%Z ->
  interrupt tk = true ->
  Cli.r_exit (Cli.main repr a e) = Cli.Exit 0
  /\ Cli.r_written (Cli.main repr a e) = Z.of_nat (List.length good)
  /\ content (Cli.r_fs (Cli.main repr a e)) (Cli.out_path a e)
     = content (Cli.e_fs e) (Cli.out_path a e)
       ++ (if negb (exists_ (Cli.e_fs e) (Cli.out_path a e))
              && negb (Cli.append a)
           then [header] else [])
       ++ map (row_of repr) good.
Proof.
  intros Hi Hs Ht Hg Hc Hk.
  apply (cli_ended_after repr a e good tk rest Cli.KeyboardInterrupt);
    try assumption; [| discriminate].
  intros s. unfold Cli.body. rewrite Hk. cbn [fst snd].
  now rewrite written_wait.
Qed.

Lemma cli_interrupt_keeps_rows_witness :
  Cli.r_exit
    (Cli.main repr0 (Cli.mkArgs "COM3" 9600 1 0 "log.csv" false)
       (Cli.mkEnv no_files "default.csv" true 0
          (firstn 2 demo_ticks ++ [mkTick 0 0 true (ReadOk None) ""])))
  = Cli.Exit 0.
Proof.
  refine (proj1 (cli_interrupt_keeps_rows repr0
                   (Cli.mkArgs "COM3" 9600 1 0 "log.csv" false)
                   (Cli.mkEnv no_files "default.csv" true 0
                      (firstn 2 demo_ticks ++ [mkTick 0 0 true (ReadOk None) ""]))
                   (firstn 2 demo_ticks) (mkTick 0 0 true (ReadOk None) "") []
                   _ _ _ _ _ _)); try reflexivity.
  left. cbn. lia.
Defined.

(** X6: a read that raises ends the CLI run with that exception, not
    with an exit code; file and reader are closed first and the log holds
    every row of the passes completed before. *)
Theorem cli_read_error_propagates (repr : float -> string)
  (a : Cli.Args) (e : Cli.env) (good : list tick) (tk : tick)
  (rest : list tick) (msg : string) :
  0 < Cli.interval a ->
  Cli.e_serial_ok e = true ->
  Cli.e_ticks e = good ++ tk :: rest ->
  forallb is_good good = true ->
  (Cli.count a <= 0 \/ Z.of_nat (List.length good) < Cli.count a)%Z ->
  interrupt tk = false ->
  result tk = ReadError msg ->
  Cli.r_exit (Cli.main repr a e) = Cli.Raise msg
  /\ Cli.r_written (Cli.main repr a e) = Z.of_nat (List.length good)
  /\ content (Cli.r_fs (Cli.main repr a e)) (Cli.out_path a e)
     = content (Cli.e_fs e) (Cli.out_path a e)
       ++ (if negb (exists_ (Cli.e_fs e) (Cli.out_path a e))
              && negb (Cli.append a)
           then [header] else [])
       ++ map (row_of repr) good.
Proof.
  intros Hi Hs Ht Hg Hc Hk Hr.
  apply (cli_ended_after repr a e good tk rest (Cli.Raised msg));
    try assumption; [| discriminate].
  intros s. unfold Cli.body. rewrite Hk, Hr. cbn [fst snd].
  now rewrite written_app, written_wait.
Qed.

Lemma cli_read_error_propagates_witness :
  Cli.r_exit
    (Cli.main repr0 demo_args
       (Cli.mkEnv no_files "default.csv" true 0
          (firstn 1 demo_ticks ++ [mkTick 0 0 false (ReadError "lost") ""])))
  = Cli.Raise "lost".
Proof.
  refine (proj1 (cli_read_error_propagates repr0 demo_args
                   (Cli.mkEnv no_files "default.csv" true 0
                      (firstn 1 demo_ticks
                       ++ [mkTick 0 0 false (ReadError "lost") ""]))
                   (firstn 1 demo_ticks)
                   (mkTick 0 0 false (ReadError "lost") "") [] "lost"
                   _ _ _ _ _ _ _)); try reflexivity.
  right. cbn. lia.
Defined.

(* ================================================================== *)
(** * Further properties of the schedule *)

Lemma on_time_wait (d n : Q) : n <= d -> Forall on_time (wait_events d n).
Proof.
  intros H. unfold wait_events. constructor; [exact H |].
  destruct (sleep_request d n); repeat constructor.
Qed.

Lemma after_wait_bounds (d n over : Q) :
  0 <= over -> d <= after_wait d n over /\ (n <= d -> after_wait d n over <= d + over).
Proof.
  intros Ho. destruct (Qlt_le_dec n d) as [Hlt | Hge].
  - pose proof (after_wait_early d n over Hlt) as E. rewrite E. split; lra.
  - rewrite (after_wait_late d n over Hge). split; lra.
Qed.

Lemma cli_loop_on_time (repr : float -> string) (interval : Q) (count : Z)
  (ticks : list tick) :
  Forall (fun tk => 0 <= oversleep tk /\ oversleep tk + latency tk <= interval)
         ticks ->
  forall s,
    Cli.now s <= Cli.next_t s ->
    Forall on_time (snd (fst (Cli.loop repr interval count ticks s))).
Proof.
  induction 1 as [| tk rest [Ho Hl] Hrest IH]; intros s Hs; [constructor |].
  cbn [Cli.loop].
  assert (Hb : Forall on_time (snd (fst (Cli.body repr interval count tk s)))
               /\ Cli.now (snd (Cli.body repr interval count tk s))
                  <= Cli.next_t (snd (Cli.body repr interval count tk s))
                  \/ fst (fst (Cli.body repr interval count tk s))
                     <> Cli.Continue
                     /\ Forall on_time
                          (snd (fst (Cli.body repr interval count tk s)))).
  { destruct (after_wait_bounds (Cli.next_t s) (Cli.now s) (oversleep tk) Ho)
      as [_ Hup]. specialize (Hup Hs).
    unfold Cli.body. destruct (interrupt tk); cbn [fst snd].
    - right. split; [discriminate | now apply on_time_wait].
    - destruct (result tk); cbn [fst snd Cli.now Cli.next_t].
      + left. split.
        * apply Forall_app. split; [now apply on_time_wait |].
          repeat constructor.
        * lra.
      + right. split; [discriminate |].
        apply Forall_app. split; [now apply on_time_wait |].
        repeat constructor. }
  destruct (Cli.body repr interval count tk s) as [[x evs] s'].
  cbn [fst snd] in Hb.
  destruct x; cbn [fst snd];
    try (destruct Hb as [[Hev _] | [_ Hev]]; exact Hev).
  destruct Hb as [[Hev Hs'] | [Hx _]]; [| contradiction].
  specialize (IH s' Hs').
  destruct (Cli.loop repr interval count rest s') as [[x' evs'] s''].
  cbn [fst snd] in *. apply Forall_app. split; assumption.
Qed.

Lemma gui_loop_on_time (interval : Q) (ticks : list Gui.gtick) :
  Forall (fun g => 0 <= oversleep (Gui.g_tick g)
                   /\ oversleep (Gui.g_tick g) + latency (Gui.g_tick g)
                      <= interval) ticks ->
  forall s,
    Gui.w_now s <= Gui.w_next_t s ->
    Forall on_time (snd (Gui.worker_loop interval ticks s)).
Proof.
  induction 1 as [| g rest [Ho Hl] Hrest IH]; intros s Hs.
  - cbn [Gui.worker_loop]. destruct (Gui.w_stop s); constructor.
  - cbn [Gui.worker_loop]. destruct (Gui.w_stop s); [constructor |].
    destruct (after_wait_bounds (Gui.w_next_t s) (Gui.w_now s)
                (oversleep (Gui.g_tick g)) Ho) as [_ Hup].
    specialize (Hup Hs).
    unfold Gui.iteration.
    destruct (Gui.g_stop g); cbv beta iota zeta;
      try (repeat constructor; fail);
      destruct (result (Gui.g_tick g)); cbn [fst snd];
      try (match goal with
           | |- context [Gui.worker_loop ?i ?r ?s'] =>
               specialize (IH s');
               destruct (Gui.worker_loop i r s') as [x' evs']
           end; cbn [fst snd Gui.w_now Gui.w_next_t] in *);
      repeat (apply Forall_app; split);
      try (now apply on_time_wait); try (repeat constructor; fail);
      apply IH; lra.
Qed.

(** X7: when sleeps do not return early and no pass (oversleep plus read
    and write) takes longer than the interval, no pass of either loop ever
    finds the clock past its deadline: the run never falls behind its
    schedule. And a pass never starts before its deadline. *)
Theorem no_pass_is_late (repr : float -> string) :
  (forall a e,
      Forall (fun tk => 0 <= oversleep tk
                        /\ oversleep tk + latency tk <= Cli.interval a)
             (Cli.e_ticks e) ->
      Forall on_time (Cli.r_trace (Cli.main repr a e)))
  /\ (forall port interval serial_ok t0 ticks,
         Forall (fun g => 0 <= oversleep (Gui.g_tick g)
                          /\ oversleep (Gui.g_tick g) + latency (Gui.g_tick g)
                             <= interval) ticks ->
         Forall on_time (snd (Gui.run port interval serial_ok t0 ticks)))
  /\ (forall d n over, 0 <= over -> d <= after_wait d n over).
Proof.
  split; [| split].
  - intros a e Ht. unfold Cli.main.
    destruct (Qle_bool (Cli.interval a) 0); [repeat constructor |].
    destruct (Cli.e_serial_ok e); cbn [negb]; [| repeat constructor].
    assert (Ho : Forall on_time
                   (snd (Cli.open_log (Cli.out_path a e) (Cli.append a)
                           (Cli.e_fs e)))).
    { unfold Cli.open_log. destruct (Cli.write_header_of _ _);
        repeat constructor. }
    destruct (Cli.open_log _ _ _) as [[f d] opened]. cbn [snd] in Ho.
    pose proof (cli_loop_on_time repr (Cli.interval a) (Cli.count a)
                  (Cli.e_ticks e) Ht
                  (Cli.mkLoop (Cli.e_t0 e) (Cli.e_t0 e) 0 f d)
                  (Qle_refl _)) as Hl.
    destruct (Cli.loop _ _ _ _ _) as [[x evs] s]. cbn [fst snd] in Hl.
    destruct x; cbn [Cli.r_trace];
      repeat (apply Forall_app; split); try assumption; repeat constructor.
  - intros port interval serial_ok t0 ticks Ht. unfold Gui.run.
    destruct serial_ok; cbn [negb]; [| repeat constructor].
    pose proof (gui_loop_on_time interval ticks Ht
                  (Gui.mkWorker false t0 t0) (Qle_refl _)) as Hl.
    destruct (Gui.worker_loop _ _ _) as [x evs]. cbn [snd] in Hl.
    destruct x; cbn [snd];
      repeat (apply Forall_app; split); try assumption; repeat constructor.
  - intros d n over Ho. now apply after_wait_bounds.
Qed.

Lemma no_pass_is_late_witness :
  Forall on_time (Cli.r_trace (Cli.main repr0 demo_args demo_env)).
Proof.
  apply (proj1 (no_pass_is_late repr0) demo_args demo_env).
  repeat constructor; cbn; try discriminate.
Defined.

(* ================================================================== *)
(** * Shape of the log and of the traces *)

Lemma data_row_length (repr : float -> string) (ts : string)
  (c : reading * reading * reading * reading) :
  List.length (data_row repr ts c) = 5%nat.
Proof. now destruct c as [[[c1 c2] c3] c4]. Qed.

Lemma cli_loop_rows_five (repr : float -> string) (interval : Q) (count : Z)
  (ticks : list tick) (s : Cli.loop_state) :
  Forall (fun r => List.length r = 5%nat)
         (written (snd (fst (Cli.loop repr interval count ticks s)))).
Proof.
  revert s. induction ticks as [| tk rest IH]; intros s; [constructor |].
  cbn [Cli.loop].
  assert (Hb : Forall (fun r => List.length r = 5%nat)
                 (written (snd (fst (Cli.body repr interval count tk s))))).
  { unfold Cli.body. destruct (interrupt tk); cbn [fst snd].
    - rewrite written_wait. constructor.
    - destruct (result tk); cbn [fst snd];
        rewrite written_app, written_wait; cbn [app written];
        repeat constructor. apply data_row_length. }
  destruct (Cli.body repr interval count tk s) as [[x evs] s'].
  cbn [fst snd] in Hb. destruct x; cbn [fst snd]; try exact Hb.
  specialize (IH s').
  destruct (Cli.loop repr interval count rest s') as [[x' evs'] s''].
  cbn [fst snd] in *. rewrite written_app. apply Forall_app. now split.
Qed.

Lemma gui_deliver_rows_five (repr : float -> string) (evs : list event)
  (w : Gui.window) (d : fs) :
  Forall (fun r => List.length r = 5%nat)
         (written (snd (Gui.deliver repr evs w d))).
Proof.
  revert w d. induction evs as [| ev rest IH]; intros w d; [constructor |].
  cbn [Gui.deliver].
  assert (Hs : Forall (fun r => List.length r = 5%nat)
                 (written (snd (Gui.slot repr ev w d)))).
  { destruct ev; cbn [Gui.slot snd written]; try constructor.
    - unfold Gui.on_sample. destruct (Gui.csv_file w); cbn [snd written];
        repeat constructor.
    - unfold Gui.on_finished. destruct (Gui.csv_file w); cbn [snd written];
        constructor. }
  destruct (Gui.slot repr ev w d) as [[w1 d1] out1]. cbn [snd] in Hs.
  specialize (IH w1 d1).
  destruct (Gui.deliver repr rest w1 d1) as [[w2 d2] out2].
  cbn [snd] in *. rewrite written_app. apply Forall_app. now split.
Qed.

(** X8: every row either front end hands to the csv writer, the header
    included, has exactly five fields, whatever the device returns: the
    columns of the log never shift. *)
Theorem rows_have_five_fields (repr : float -> string) :
  (forall a e,
      Forall (fun r => List.length r = 5%nat)
             (written (Cli.r_trace (Cli.main repr a e))))
  /\ (forall fm serial_ok t0 ticks w d,
         Forall (fun r => List.length r = 5%nat)
                (written (Gui.window_trace
                            (Gui.session repr fm serial_ok t0 ticks w d)))).
Proof.
  split.
  - intros a e. unfold Cli.main.
    destruct (Qle_bool (Cli.interval a) 0); [constructor |].
    destruct (Cli.e_serial_ok e); cbn [negb]; [| constructor].
    assert (Ho : Forall (fun r => List.length r = 5%nat)
                   (written (snd (Cli.open_log (Cli.out_path a e)
                                    (Cli.append a) (Cli.e_fs e))))).
    { unfold Cli.open_log. destruct (Cli.write_header_of _ _);
        cbn [snd written]; repeat constructor. }
    destruct (Cli.open_log _ _ _) as [[f d] opened]. cbn [snd] in Ho.
    pose proof (cli_loop_rows_five repr (Cli.interval a) (Cli.count a)
                  (Cli.e_ticks e)
                  (Cli.mkLoop (Cli.e_t0 e) (Cli.e_t0 e) 0 f d)) as Hl.
    destruct (Cli.loop _ _ _ _ _) as [[x evs] s]. cbn [fst snd] in Hl.
    destruct x; cbn [Cli.r_trace]; rewrite !written_app;
      cbn [written app]; rewrite ?app_nil_r;
      apply Forall_app; split; assumption.
  - intros fm serial_ok t0 ticks w d. unfold Gui.session.
    assert (Hs : Forall (fun r => List.length r = 5%nat)
                   (written (snd (Gui.start fm w d)))).
    { unfold Gui.start.
      destruct (Gui.thread_active w); [constructor |].
      destruct (is_empty (strip (Gui.port_text fm))); [constructor |].
      destruct (is_empty (strip (Gui.csv_path fm))); [constructor |].
      unfold Gui._open_csv.
      destruct (Gui.write_header_of _ _); cbn [snd written];
        repeat constructor. }
    destruct (Gui.start fm w d) as [[[st w1] d1] evs1]. cbn [snd] in Hs.
    destruct st as [| | port i]; cbn [Gui.window_trace]; try exact Hs.
    pose proof (gui_deliver_rows_five repr
                  (snd (Gui.run port i serial_ok t0 ticks)) w1 d1) as Hd.
    destruct (Gui.deliver repr _ w1 d1) as [[w2 d2] evs2].
    cbn [snd Gui.window_trace] in *. rewrite written_app.
    apply Forall_app. now split.
Qed.

Lemma no_use_after_close_calm (l1 l2 : list event) :
  forallb loop_action l1 = true ->
  no_use_after_close (l1 ++ l2) = no_use_after_close l2.
Proof.
  induction l1 as [| ev l1 IH]; intros H; [reflexivity |].
  cbn [forallb] in H. apply andb_prop in H. destruct H as [Hev H].
  destruct ev; try discriminate Hev; cbn; now apply IH.
Qed.

Lemma no_use_after_close_actions (l : list event) :
  forallb loop_action l = true -> no_use_after_close l = true.
Proof.
  intros H. rewrite <- (app_nil_r l). now rewrite no_use_after_close_calm.
Qed.

Lemma loop_action_wait (d n : Q) : forallb loop_action (wait_events d n) = true.
Proof. unfold wait_events. now destruct (sleep_request d n). Qed.

Lemma cli_loop_actions (repr : float -> string) (interval : Q) (count : Z)
  (ticks : list tick) (s : Cli.loop_state) :
  forallb loop_action (snd (fst (Cli.loop repr interval count ticks s))) = true.
Proof.
  revert s. induction ticks as [| tk rest IH]; intros s; [reflexivity |].
  cbn [Cli.loop].
  assert (Hb : forallb loop_action
                 (snd (fst (Cli.body repr interval count tk s))) = true).
  { unfold Cli.body. destruct (interrupt tk); cbn [fst snd].
    - apply loop_action_wait.
    - destruct (result tk); cbn [fst snd];
        now rewrite forallb_app, loop_action_wait. }
  destruct (Cli.body repr interval count tk s) as [[x evs] s'].
  cbn [fst snd] in Hb. destruct x; cbn [fst snd]; try exact Hb.
  specialize (IH s').
  destruct (Cli.loop repr interval count rest s') as [[x' evs'] s''].
  cbn [fst snd] in *. now rewrite forallb_app, Hb, IH.
Qed.

Lemma gui_loop_actions (interval : Q) (ticks : list Gui.gtick)
  (s : Gui.worker_state) :
  forallb loop_action (snd (Gui.worker_loop interval ticks s)) = true.
Proof.
  revert s. induction ticks as [| g rest IH]; intros s.
  - cbn [Gui.worker_loop]. now destruct (Gui.w_stop s).
  - cbn [Gui.worker_loop]. destruct (Gui.w_stop s); [reflexivity |].
    unfold Gui.iteration.
    destruct (Gui.g_stop g); cbv beta iota zeta; try reflexivity;
      destruct (result (Gui.g_tick g)); cbn [fst snd];
      try (match goal with
           | |- context [Gui.worker_loop ?i ?r ?s'] =>
               specialize (IH s');
               destruct (Gui.worker_loop i r s') as [x' evs']
           end; cbn [fst snd] in *);
      rewrite !forallb_app, loop_action_wait, ?IH; reflexivity.
Qed.

(** X9: in no run does the CLI read the device after closing it or write
    or flush the log after closing it, and the GUI worker never reads
    after closing the reader. *)
Theorem nothing_used_after_close (repr : float -> string) :
  (forall a e, no_use_after_close (Cli.r_trace (Cli.main repr a e)) = true)
  /\ (forall port interval serial_ok t0 ticks,
         no_use_after_close (snd (Gui.run port interval serial_ok t0 ticks))
         = true).
Proof.
  split.
  - intros a e. unfold Cli.main.
    destruct (Qle_bool (Cli.interval a) 0); [reflexivity |].
    destruct (Cli.e_serial_ok e); cbn [negb]; [| reflexivity].
    assert (Ho : forallb loop_action
                   (tl (snd (Cli.open_log (Cli.out_path a e) (Cli.append a)
                               (Cli.e_fs e)))) = true
                 /\ exists m, hd Read (snd (Cli.open_log (Cli.out_path a e)
                                              (Cli.append a) (Cli.e_fs e)))
                              = FileOpen (Cli.out_path a e) m
                 /\ snd (Cli.open_log (Cli.out_path a e) (Cli.append a)
                           (Cli.e_fs e)) <> []).
    { unfold Cli.open_log. destruct (Cli.write_header_of _ _); cbn [snd tl hd];
        (split; [reflexivity | eexists; split; [reflexivity | discriminate]]). }
    destruct (Cli.open_log _ _ _) as [[f d] opened]. cbn [snd] in Ho.
    destruct Ho as (Hact & m & Hhd & Hne).
    destruct opened as [| ev opened]; [contradiction |].
    cbn [hd tl] in *. subst ev.
    pose proof (cli_loop_actions repr (Cli.interval a) (Cli.count a)
                  (Cli.e_ticks e)
                  (Cli.mkLoop (Cli.e_t0 e) (Cli.e_t0 e) 0 f d)) as Hl.
    destruct (Cli.loop _ _ _ _ _) as [[x evs] s]. cbn [fst snd] in Hl.
    assert (Hcalm : forall tail,
               no_use_after_close
                 (([MakeDirs (Cli.out_path a e); ReaderOpen]
                   ++ (FileOpen (Cli.out_path a e) m :: opened) ++ evs) ++ tail)
               = no_use_after_close tail).
    { intros tail. cbn [app no_use_after_close].
      rewrite <- app_assoc, no_use_after_close_calm by exact Hact.
      now apply no_use_after_close_calm. }
    destruct x; cbn [Cli.r_trace]; rewrite ?Hcalm; try reflexivity.
    rewrite <- (app_nil_r (_ ++ _ ++ evs)). now rewrite Hcalm.
  - intros port interval serial_ok t0 ticks. unfold Gui.run.
    destruct serial_ok; cbn [negb]; [| reflexivity].
    pose proof (gui_loop_actions interval ticks (Gui.mkWorker false t0 t0))
      as Hl.
    destruct (Gui.worker_loop _ _ _) as [x evs]. cbn [snd] in Hl.
    destruct x; cbn [snd app no_use_after_close];
      rewrite ?no_use_after_close_calm by exact Hl;
      try reflexivity.
    now apply no_use_after_close_actions.
Qed.

(* ================================================================== *)
(** * Further properties of the GUI session *)

Lemma finished_count_app (l1 l2 : list event) :
  finished_count (l1 ++ l2) = (finished_count l1 + finished_count l2)%nat.
Proof. unfold finished_count. now rewrite filter_app, length_app. Qed.

Lemma finished_count_in_loop (evs : list event) :
  in_loop evs -> finished_count evs = 0%nat.
Proof.
  unfold in_loop, finished_count. induction evs as [| ev rest IH]; intros H;
    [reflexivity |].
  cbn [forallb] in H. apply andb_prop in H. destruct H as [Hev H].
  cbn [filter]. destruct (is_finished ev); [discriminate | now apply IH].
Qed.

Lemma gui_run_finished_count (port : string) (interval : Q)
  (serial_ok : bool) (t0 : Q) (ticks : list Gui.gtick) :
  fst (Gui.run port interval serial_ok t0 ticks) <> Gui.Next ->
  finished_count (snd (Gui.run port interval serial_ok t0 ticks))
  = if serial_ok then 1%nat else 2%nat.
Proof.
  unfold Gui.run. destruct serial_ok; cbn [negb]; [| reflexivity].
  pose proof (worker_loop_in_loop interval ticks (Gui.mkWorker false t0 t0))
    as Hq.
  destruct (Gui.worker_loop _ _ _) as [x evs]. cbn [snd] in Hq.
  apply finished_count_in_loop in Hq.
  destruct x; cbn [fst snd]; intros Hx; [contradiction | |];
    rewrite !finished_count_app, Hq; reflexivity.
Qed.

Lemma gui_deliver_window (repr : float -> string) (evs : list event)
  (w : Gui.window) (d : fs) :
  let w' := fst (fst (Gui.deliver repr evs w d)) in
  Gui.test_index w' = (Gui.test_index w + finished_count evs)%nat
  /\ Gui.max_points w' = Gui.max_points w
  /\ dialogs (snd (Gui.deliver repr evs w d))
     = List.concat (map (fun ev => match ev with
                              | SigError msg => [msg]
                              | _ => []
                              end) evs).
Proof.
  revert w d. induction evs as [| ev rest IH]; intros w d; cbv zeta.
  - cbn. repeat split. lia.
  - cbn [Gui.deliver].
    assert (Hs : Gui.test_index (fst (fst (Gui.slot repr ev w d)))
                 = (Gui.test_index w + finished_count [ev])%nat
                 /\ Gui.max_points (fst (fst (Gui.slot repr ev w d)))
                    = Gui.max_points w
                 /\ dialogs (snd (Gui.slot repr ev w d))
                    = match ev with
                      | SigError msg => [msg]
                      | _ => []
                      end).
    { destruct ev; cbn [Gui.slot fst snd dialogs finished_count];
        try (cbn; repeat split; lia).
      - unfold Gui.on_sample. destruct (Gui.csv_file w); cbn; repeat split; lia.
      - unfold Gui.on_finished. destruct (Gui.csv_file w); cbn; repeat split; lia. }
    destruct Hs as (Ht & Hm & Hd).
    destruct (Gui.slot repr ev w d) as [[w1 d1] out1]. cbn [fst snd] in *.
    destruct (IH w1 d1) as (Ht' & Hm' & Hd').
    destruct (Gui.deliver repr rest w1 d1) as [[w2 d2] out2].
    cbn [fst snd] in *.
    change (ev :: rest) with ([ev] ++ rest).
    rewrite finished_count_app, Ht', Ht, Hm', Hm.
    split; [lia |]. split; [reflexivity |].
    assert (Happ : forall l1 l2, dialogs (l1 ++ l2) = dialogs l1 ++ dialogs l2).
    { induction l1 as [| e1 l1 IH1]; intros l2; [reflexivity |].
      destruct e1; cbn; rewrite ?IH1; reflexivity. }
    rewrite Happ, Hd, Hd'. cbn [map List.concat]. reflexivity.
Qed.

(** What [start] does not change, and that it shows no dialog when it
    launches. *)
Lemma gui_start_keeps (fm : Gui.form) (w : Gui.window) (d : fs) :
  let out := Gui.start fm w d in
  Gui.test_index (snd (fst (fst out))) = Gui.test_index w
  /\ Gui.max_points (snd (fst (fst out))) = Gui.max_points w
  /\ match fst (fst (fst out)) with
     | Gui.Launched _ _ =>
         dialogs (snd out) = [] /\ flushed (snd (fst (fst out)))
     | _ => snd (fst (fst out)) = w /\ snd (fst out) = d
            /\ written (snd out) = []
     end.
Proof.
  cbv zeta. unfold Gui.start.
  destruct (Gui.thread_active w); [repeat split |].
  destruct (is_empty (strip (Gui.port_text fm))); [repeat split |].
  destruct (is_empty (strip (Gui.csv_path fm))); [repeat split |].
  unfold Gui._open_csv, flushed.
  destruct (Gui.write_header_of _ _); cbn; repeat split.
Qed.





(** X12: a run of the worker that ended after opening the port emits the
    finished signal once; a run whose port did not open emits it twice
    (once before the early return, once in the finally clause), so the
    window's test index then advances by two instead of one. In both cases
    the window ends idle with no file open. *)
Theorem finished_once_or_twice (repr : float -> string) (fm : Gui.form)
  (serial_ok : bool) (t0 : Q) (ticks : list Gui.gtick) (w : Gui.window)
  (d : fs) :
  match Gui.launched (Gui.session repr fm serial_ok t0 ticks w d) with
  | Gui.Launched port i =>
      fst (Gui.run port i serial_ok t0 ticks) <> Gui.Next ->
      finished_count
        (Gui.worker_trace (Gui.session repr fm serial_ok t0 ticks w d))
      = (if serial_ok then 1%nat else 2%nat)
      /\ Gui.test_index
           (Gui.final (Gui.session repr fm serial_ok t0 ticks w d))
         = (Gui.test_index w + if serial_ok then 1 else 2)%nat
      /\ Gui.thread_active
           (Gui.final (Gui.session repr fm serial_ok t0 ticks w d)) = false
      /\ Gui.csv_file
           (Gui.final (Gui.session repr fm serial_ok t0 ticks w d)) = None
  | _ => True
  end.
Proof.
  pose proof (gui_session_ended repr fm serial_ok t0 ticks w d) as He.
  cbv zeta in He. unfold Gui.session in *.
  pose proof (gui_start_keeps fm w d) as Hk. cbv zeta in Hk.
  destruct (Gui.start fm w d) as [[[st w1] d1] evs1]. cbn [fst snd] in Hk.
  destruct st as [| | port i]; cbn [Gui.launched] in *; try exact I.
  destruct Hk as (Hti & _ & _).
  pose proof (gui_deliver_window repr
                (snd (Gui.run port i serial_ok t0 ticks)) w1 d1) as Hw.
  cbv zeta in Hw, He.
  destruct (Gui.deliver repr _ w1 d1) as [[w2 d2] evs2].
  cbn [fst snd Gui.launched Gui.worker_trace Gui.final] in *.
  intros Hx. destruct (He Hx) as (_ & Hc & Ha & _).
  destruct Hw as (Ht & _).
  rewrite Ht, Hti, (gui_run_finished_count port i serial_ok t0 ticks Hx).
  repeat split; assumption.
Qed.

Lemma finished_once_or_twice_witness :
  Gui.test_index
    (Gui.final (Gui.session repr0 demo_form false 0 two_then_stop
                            Gui.init no_files))
  = 3%nat.
Proof.
  pose proof (finished_once_or_twice repr0 demo_form false 0 two_then_stop
                Gui.init no_files) as H.
  cbn in H. destruct H as (_ & H & _); [discriminate | exact H].
Defined.

(** When the port does not open in the GUI, the log has already been
    opened by [start]: the file exists afterwards and holds the header (or,
    with append on an existing file, what it held), no Sample is emitted,
    and the window shows exactly one dialog, which names the port. *)
Lemma gui_port_failure_leaves_header (repr : float -> string)
  (fm : Gui.form) (t0 : Q) (ticks : list Gui.gtick) (w : Gui.window)
  (d : fs) :
  match Gui.launched (Gui.session repr fm false t0 ticks w d) with
  | Gui.Launched port _ =>
      samples (Gui.worker_trace (Gui.session repr fm false t0 ticks w d)) = []
      /\ dialogs (Gui.window_trace (Gui.session repr fm false t0 ticks w d))
         = [("Failed to open " ++ port ++ ". Is it in use?")%string]
      /\ exists_ (Gui.final_fs (Gui.session repr fm false t0 ticks w d))
                 (strip (Gui.csv_path fm)) = true
      /\ content (Gui.final_fs (Gui.session repr fm false t0 ticks w d))
                 (strip (Gui.csv_path fm))
         = if Gui.append_chk fm && exists_ d (strip (Gui.csv_path fm))
           then content d (strip (Gui.csv_path fm))
           else [header]
  | _ => True
  end.
Proof.
  pose proof (gui_session_ended repr fm false t0 ticks w d) as Hend.
  cbv zeta in Hend.
  unfold Gui.session in *.
  pose proof (gui_start_keeps fm w d) as Hk. cbv zeta in Hk.
  assert (Hex : match fst (fst (fst (Gui.start fm w d))) with
                | Gui.Launched _ _ =>
                    exists_ (snd (fst (Gui.start fm w d)))
                            (strip (Gui.csv_path fm)) = true
                | _ => True
                end).
  { unfold Gui.start.
    destruct (Gui.thread_active w); [exact I |].
    destruct (is_empty (strip (Gui.port_text fm))); [exact I |].
    destruct (is_empty (strip (Gui.csv_path fm))); [exact I |].
    unfold Gui._open_csv.
    destruct (Gui.write_header_of _ _); cbn [fst snd].
    - apply exists_set.
    - apply exists_fopen. }
  destruct (Gui.start fm w d) as [[[st w1] d1] evs1]. cbn [fst snd] in Hk, Hex.
  destruct st as [| | port i]; cbn [Gui.launched] in *; try exact I.
  destruct Hk as (_ & _ & Hdl & _).
  assert (Hrun : snd (Gui.run port i false t0 ticks)
                 = [ReaderOpen;
                    SigError ("Failed to open " ++ port ++ ". Is it in use?");
                    SigFinished] ++ Gui.teardown) by reflexivity.
  assert (Hx : fst (Gui.run port i false t0 ticks) <> Gui.Next) by discriminate.
  rewrite Hrun in *.
  assert (Hd2 : dialogs (snd (Gui.deliver repr
                   ([ReaderOpen;
                     SigError ("Failed to open " ++ port ++ ". Is it in use?");
                     SigFinished] ++ Gui.teardown) w1 d1))
                = [("Failed to open " ++ port ++ ". Is it in use?")%string]).
  { cbn. unfold Gui.on_finished. destruct (Gui.csv_file w1); reflexivity. }
  assert (He2 : exists_ (snd (fst (Gui.deliver repr
                   ([ReaderOpen;
                     SigError ("Failed to open " ++ port ++ ". Is it in use?");
                     SigFinished] ++ Gui.teardown) w1 d1)))
                   (strip (Gui.csv_path fm)) = true).
  { cbn. unfold Gui.on_finished, fclose, fflush.
    destruct (Gui.csv_file w1) as [f |]; cbn [fst snd]; [| exact Hex].
    unfold exists_, fs_set.
    destruct (String.eqb (strip (Gui.csv_path fm)) (f_path f));
      [reflexivity | exact Hex]. }
  destruct (Gui.deliver repr _ w1 d1) as [[w2 d2] evs2].
  cbn [fst snd Gui.worker_trace Gui.final_fs Gui.window_trace] in *.
  destruct (Hend Hx) as (_ & _ & _ & Hc & Hw).
  cbn [samples app map] in Hw. rewrite app_nil_r in Hw.
  assert (Happ : forall l1 l2, dialogs (l1 ++ l2) = dialogs l1 ++ dialogs l2).
  { induction l1 as [| e1 l1 IH1]; intros l2; [reflexivity |].
    destruct e1; cbn; rewrite ?IH1; reflexivity. }
  split; [reflexivity |]. split; [now rewrite Happ, Hdl, Hd2 |].
  split; [exact He2 |].
  rewrite Hc, Hw.
  destruct (Gui.append_chk fm && exists_ d (strip (Gui.csv_path fm)));
    cbn [negb app]; now rewrite ?app_nil_r.
Qed.

(** ** The live buffers as a window over the run *)

Lemma lastn_snoc {A : Type} (m : nat) (l : list A) (a : A) :
  skipn (List.length (lastn m l) + 1 - m) (lastn m l ++ [a])
  = lastn m (l ++ [a]).
Proof.
  unfold lastn. rewrite length_skipn, length_app. cbn [List.length].
  set (n := List.length l). set (k := (n - m)%nat).
  assert (E : skipn k l ++ [a] = skipn k (l ++ [a])).
  { rewrite skipn_app. fold n. replace (k - n)%nat with 0%nat by lia.
    reflexivity. }
  rewrite E, skipn_skipn. f_equal. lia.
Qed.

Lemma length_lastn {A B : Type} (m : nat) (l : list A) (l' : list B) :
  List.length l = List.length l' ->
  List.length (lastn m l) = List.length (lastn m l').
Proof. intros H. unfold lastn. rewrite !length_skipn, H. reflexivity. Qed.

Lemma on_sample_plots (repr : float -> string) (s : Sample)
  (hs : list Sample) (w : Gui.window) (d : fs) :
  plots hs w -> plots (hs ++ [s]) (fst (fst (Gui.on_sample repr s w d))).
Proof.
  intros (Hi & Hx & Hy).
  assert (Hl : forall f : Sample -> float,
             List.length (lastn (Gui.max_points w) (map f hs))
             = List.length (Gui.x w)).
  { intros f. rewrite Hx. apply length_lastn.
    now rewrite length_map, length_seq. }
  destruct (on_sample_buffers repr s w d _ _ _ _ Hy
              (Hl _) (Hl _) (Hl _) (Hl _))
    as (Hm & Hx' & Hy' & _).
  assert (Hdrop : forall f : Sample -> float,
             (List.length (Gui.x w) + 1 - Gui.max_points w)%nat
             = (List.length (lastn (Gui.max_points w) (map f hs)) + 1
                - Gui.max_points w)%nat)
    by (intros f; now rewrite Hl).
  unfold plots. rewrite Hm. split; [| split].
  - unfold Gui.on_sample. cbn [fst Gui.idx]. rewrite Hi, length_app. cbn. lia.
  - rewrite Hx', Hi. rewrite Hx at 2.
    replace (List.length (Gui.x w))
      with (List.length (lastn (Gui.max_points w) (seq 0 (List.length hs))))
      by now rewrite <- Hx.
    rewrite lastn_snoc, length_app. cbn [List.length].
    rewrite Nat.add_1_r, seq_S. reflexivity.
  - rewrite Hy'. rewrite !map_app. cbn [map].
    rewrite (Hdrop (fun s0 => Gui.plot_value (s_ch1 s0))) at 1.
    rewrite (Hdrop (fun s0 => Gui.plot_value (s_ch2 s0))) at 1.
    rewrite (Hdrop (fun s0 => Gui.plot_value (s_ch3 s0))) at 1.
    rewrite (Hdrop (fun s0 => Gui.plot_value (s_ch4 s0))).
    rewrite !lastn_snoc. reflexivity.
Qed.

Lemma deliver_plots (repr : float -> string) (evs : list event)
  (hs : list Sample) (w : Gui.window) (d : fs) :
  plots hs w ->
  plots (hs ++ samples evs) (fst (fst (Gui.deliver repr evs w d))).
Proof.
  revert hs w d. induction evs as [| ev rest IH]; intros hs w d Hw.
  - cbn. now rewrite app_nil_r.
  - cbn [Gui.deliver].
    assert (H1 : plots (hs ++ samples [ev])
                       (fst (fst (Gui.slot repr ev w d)))).
    { destruct ev; cbn [Gui.slot fst samples]; rewrite ?app_nil_r;
        try exact Hw.
      now apply on_sample_plots. }
    destruct (Gui.slot repr ev w d) as [[w1 d1] out1]. cbn [fst] in H1.
    specialize (IH _ w1 d1 H1).
    destruct (Gui.deliver repr rest w1 d1) as [[w2 d2] out2].
    cbn [fst] in *. rewrite <- app_assoc, <- samples_app in IH. exact IH.
Qed.

(** X13: at any moment of a GUI session the live buffers are a sliding
    window over the run: after n Samples the x axis holds the last
    [max_points] of the indices 0 .. n-1 and each channel buffer holds the
    plot values of the last [max_points] Samples in order of arrival,
    whatever the buffers held before Start was pressed. *)
Theorem buffers_show_last_samples (repr : float -> string) (fm : Gui.form)
  (serial_ok : bool) (t0 : Q) (ticks : list Gui.gtick) (w : Gui.window)
  (d : fs) :
  List.length (Gui.y w) = 4%nat ->
  match Gui.launched (Gui.session repr fm serial_ok t0 ticks w d) with
  | Gui.Launched _ _ =>
      plots (samples (Gui.worker_trace
                        (Gui.session repr fm serial_ok t0 ticks w d)))
            (Gui.final (Gui.session repr fm serial_ok t0 ticks w d))
      /\ Gui.max_points (Gui.final (Gui.session repr fm serial_ok t0 ticks w d))
         = Gui.max_points w
  | _ => True
  end.
Proof.
  intros H4. destruct (four_lists _ H4) as (y1 & y2 & y3 & y4 & Hy).
  unfold Gui.session.
  pose proof (start_clears_buffers fm w d y1 y2 y3 y4 Hy) as Hs.
  pose proof (gui_start_keeps fm w d) as Hk. cbv zeta in Hk.
  destruct (Gui.start fm w d) as [[[st w1] d1] evs1]. cbn [fst snd] in Hk.
  destruct st as [| | port i]; cbn [Gui.launched]; try exact I.
  destruct Hs as (Hx1 & Hy1 & Hi1). destruct Hk as (_ & Hm1 & _).
  assert (Hp : plots [] w1).
  { unfold plots. rewrite Hx1, Hy1, Hi1. repeat split. }
  pose proof (deliver_plots repr (snd (Gui.run port i serial_ok t0 ticks))
                [] w1 d1 Hp) as Hd.
  pose proof (gui_deliver_window repr
                (snd (Gui.run port i serial_ok t0 ticks)) w1 d1) as Hw.
  cbv zeta in Hw.
  destruct (Gui.deliver repr _ w1 d1) as [[w2 d2] evs2].
  cbn [fst snd Gui.worker_trace Gui.final app] in *.
  split; [exact Hd |]. destruct Hw as (_ & Hm2 & _). congruence.
Qed.

Lemma buffers_show_last_samples_witness :
  plots (samples (Gui.worker_trace
                    (Gui.session repr0 demo_form true 0 two_then_stop
                                 Gui.init no_files)))
        (Gui.final (Gui.session repr0 demo_form true 0 two_then_stop
                                Gui.init no_files)).
Proof.
  pose proof (buffers_show_last_samples repr0 demo_form true 0 two_then_stop
                Gui.init no_files eq_refl) as H.
  cbn [Gui.launched] in H. exact (proj1 H).
Defined.

(** ** The two front ends on the same device *)

Lemma sample_row_of (repr : float -> string) (ts : string)
  (c : reading * reading * reading * reading) :
  sample_row repr (Gui.sample_of ts c) = data_row repr ts c.
Proof. now destruct c as [[[c1 c2] c3] c4]. Qed.

Lemma worker_loop_good (repr : float -> string) (interval : Q)
  (good : list tick) :
  forallb is_good good = true ->
  forall s,
    Gui.w_stop s = false ->
    fst (Gui.worker_loop interval (unstopped good ++ [stop_now]) s)
    = Gui.Stopped
    /\ map (sample_row repr)
           (samples (snd (Gui.worker_loop interval
                            (unstopped good ++ [stop_now]) s)))
       = map (row_of repr) good.
Proof.
  induction good as [| tk good IH]; intros Hg s Hs.
  - cbn. rewrite Hs. cbn. split; reflexivity.
  - cbn [forallb] in Hg. apply andb_prop in Hg. destruct Hg as [Htk Hg].
    cbn [unstopped map app Gui.worker_loop]. rewrite Hs.
    unfold Gui.iteration. cbn [Gui.g_stop Gui.g_tick].
    unfold is_good in Htk.
    destruct (interrupt tk); [discriminate |].
    assert (Hrow : forall temps, result tk = ReadOk temps ->
                   row_of repr tk = data_row repr (stamp tk) (channels temps))
      by (intros temps E; unfold row_of; now rewrite E).
    destruct (result tk) as [temps |]; [| discriminate].
    specialize (Hrow temps eq_refl).
    specialize (IH Hg (Gui.mkWorker false (Gui.w_next_t s + interval)
                         (after_wait (Gui.w_next_t s) (Gui.w_now s)
                            (oversleep tk) + latency tk)) eq_refl).
    fold (unstopped good).
    destruct (Gui.worker_loop interval (unstopped good ++ [stop_now]) _)
      as [x evs].
    cbn [fst snd] in *. destruct IH as [-> IH]. split; [reflexivity |].
    rewrite !samples_app, samples_wait. cbn [samples app map].
    rewrite IH, sample_row_of, Hrow. reflexivity.
Qed.

(** X14: on a fresh target without append, the CLI run with a sample
    limit and the GUI session stopped after the same reads leave the same
    file: the header followed by one row per read, field for field. *)
Theorem front_ends_write_same_rows (repr : float -> string)
  (a : Cli.Args) (e : Cli.env) (fm : Gui.form) (t0 : Q) (w : Gui.window)
  (d : fs) :
  0 < Cli.interval a ->
  Cli.e_serial_ok e = true ->
  (0 < Cli.count a)%Z ->
  Z.of_nat (List.length (Cli.e_ticks e)) = Cli.count a ->
  forallb is_good (Cli.e_ticks e) = true ->
  Cli.append a = false ->
  exists_ (Cli.e_fs e) (Cli.out_path a e) = false ->
  Gui.append_chk fm = false ->
  exists_ d (strip (Gui.csv_path fm)) = false ->
  content (Cli.r_fs (Cli.main repr a e)) (Cli.out_path a e)
  = header :: map (row_of repr) (Cli.e_ticks e)
  /\ match Gui.launched
             (Gui.session repr fm true t0
                          (unstopped (Cli.e_ticks e) ++ [stop_now]) w d) with
     | Gui.Launched _ _ =>
         content
           (Gui.final_fs
              (Gui.session repr fm true t0
                           (unstopped (Cli.e_ticks e) ++ [stop_now]) w d))
           (strip (Gui.csv_path fm))
         = content (Cli.r_fs (Cli.main repr a e)) (Cli.out_path a e)
     | _ => True
     end.
Proof.
  intros Hi Hs Hc Hn Hg Ha Hf Hga Hgf.
  assert (Hcli : content (Cli.r_fs (Cli.main repr a e)) (Cli.out_path a e)
                 = header :: map (row_of repr) (Cli.e_ticks e)).
  { destruct (cli_main_good repr a e (Cli.e_ticks e) [] Hi Hs Hc)
      as (_ & _ & _ & _ & Hw & Hd & _);
      [now rewrite app_nil_r | exact Hn | exact Hg |].
    rewrite Hd, Hw, Hf, Ha, (content_absent _ _ Hf). reflexivity. }
  split; [exact Hcli |]. rewrite Hcli.
  pose proof (gui_session_ended repr fm true t0
                (unstopped (Cli.e_ticks e) ++ [stop_now]) w d) as He.
  cbv zeta in He.
  destruct (Gui.launched _) as [| | port i]; try exact I.
  assert (Hrun : fst (Gui.run port i true t0
                        (unstopped (Cli.e_ticks e) ++ [stop_now]))
                 = Gui.Stopped
                 /\ map (sample_row repr)
                        (samples (snd (Gui.run port i true t0
                                         (unstopped (Cli.e_ticks e)
                                          ++ [stop_now]))))
                    = map (row_of repr) (Cli.e_ticks e)).
  { unfold Gui.run. cbn [negb].
    destruct (worker_loop_good repr i (Cli.e_ticks e) Hg
                (Gui.mkWorker false t0 t0) eq_refl) as [Hx Hr].
    destruct (Gui.worker_loop _ _ _) as [x evs]. cbn [fst snd] in *.
    subst x. cbn [fst snd]. split; [reflexivity |].
    rewrite !samples_app. cbn [samples app]. now rewrite app_nil_r. }
  destruct Hrun as [Hx Hr].
  destruct He as (Ht & _ & _ & Hd & Hw); [rewrite Hx; discriminate |].
  rewrite Hd, Hw, Ht, Hr, Hga, Hgf. reflexivity.
Qed.

Lemma front_ends_write_same_rows_witness :
  content
    (Cli.r_fs
       (Cli.main repr0 demo_args
          (Cli.mkEnv no_files "default.csv" true 0 (firstn 2 demo_ticks))))
    "log.csv"
  = header :: map (row_of repr0) (firstn 2 demo_ticks).
Proof.
  refine (proj1 (front_ends_write_same_rows repr0 demo_args
                   (Cli.mkEnv no_files "default.csv" true 0
                      (firstn 2 demo_ticks))
                   demo_form 0 Gui.init no_files _ _ _ _ _ _ _ _ _));
    reflexivity.
Defined.

(* ================================================================== *)
(** * The remaining controls *)

Lemma mem_In (t : string) (l : list string) : mem t l = true <-> In t l.
Proof.
  unfold mem. rewrite existsb_exists. split.
  - intros (u & Hin & E). apply String.eqb_eq in E. now subst.
  - intros Hin. exists t. split; [exact Hin | apply String.eqb_refl].
Qed.

Lemma findText_In (t : string) (l : list string) :
  In t l -> exists i, findText t l = Some i /\ nth i l "" = t.
Proof.
  induction l as [| a l IH]; intros Hin; [contradiction |].
  cbn [findText]. destruct (String.eqb_spec a t) as [E | N].
  - exists 0%nat. split; [reflexivity | exact E].
  - destruct Hin as [E | Hin]; [contradiction |].
    destruct (IH Hin) as (i & Hf & Hn). exists (S i). now rewrite Hf.
Qed.

Lemma is_empty_spec (s : string) : is_empty s = true <-> s = "".
Proof. destruct s; cbn; split; congruence. Qed.

(** X15: after [refresh_ports] the port list is what the system reports,
    or the single fallback COM3 when it reports nothing; the selected port
    is always one of the listed ones; a non-empty selection that is still
    listed is kept, and otherwise the first port is selected. *)
Theorem refresh_keeps_a_listed_port (available : list string) (c : combo) :
  items (refresh_ports available c)
  = match available with
    | [] => ["COM3"]
    | _ :: _ => available
    end
  /\ In (currentText (refresh_ports available c))
        (items (refresh_ports available c))
  /\ (currentText c <> "" ->
      In (currentText c) (items (refresh_ports available c)) ->
      currentText (refresh_ports available c) = currentText c)
  /\ (currentText c = ""
      \/ ~ In (currentText c) (items (refresh_ports available c)) ->
      currentText (refresh_ports available c)
      = hd "" (items (refresh_ports available c))).
Proof.
  set (ports := match available with
                | [] => ["COM3"]
                | _ :: _ => available
                end).
  assert (Hne : ports <> []) by (subst ports; destruct available; discriminate).
  assert (Hadd : addItems ports (combo_clear c) = mkCombo ports (Some 0%nat)).
  { unfold addItems, combo_clear. cbn. destruct ports; [contradiction | reflexivity]. }
  assert (Hfirst : In (hd "" ports) ports)
    by (destruct ports; [contradiction | now left]).
  assert (Hcur0 : currentText (mkCombo ports (Some 0%nat)) = hd "" ports)
    by (destruct ports; reflexivity).
  unfold refresh_ports. fold ports. rewrite Hadd.
  destruct (is_empty (currentText c)) eqn:He; cbn [negb andb].
  - apply is_empty_spec in He. cbn [items]. rewrite Hcur0.
    split; [reflexivity |]. split; [exact Hfirst |].
    split; [intros Hn; contradiction | intros _; reflexivity].
  - assert (Hnon : currentText c <> "")
      by (intros E; apply is_empty_spec in E; congruence).
    destruct (mem (currentText c) ports) eqn:Hm.
    + apply mem_In in Hm. destruct (findText_In _ _ Hm) as (i & Hf & Hn).
      unfold setCurrentText. cbn [items]. rewrite Hf.
      assert (Hsel : currentText (mkCombo ports (Some i)) = currentText c)
        by exact Hn.
      rewrite Hsel.
      split; [reflexivity |]. split; [exact Hm |].
      split; [intros _ _; reflexivity | intros [E | N]; contradiction].
    + cbn [items]. rewrite Hcur0.
      split; [reflexivity |]. split; [exact Hfirst |].
      split; [| intros _; reflexivity].
      intros _ Hin. apply mem_In in Hin. congruence.
Qed.

Lemma lower_append (a b : string) : lower (a ++ b) = (lower a ++ lower b)%string.
Proof. induction a as [| ch a IH]; cbn; [reflexivity | now rewrite IH]. Qed.

Lemma endswith_append (a suffix : string) :
  endswith (a ++ suffix) suffix = true.
Proof.
  induction a as [| ch a IH]; cbn [String.append endswith].
  - destruct suffix; cbn [endswith]; now rewrite String.eqb_refl.
  - rewrite IH. apply orb_true_r.
Qed.

(** X16: [browse_csv] leaves the path field alone when the dialog is
    cancelled; otherwise the field gets the chosen path, with .csv appended
    unless the path already ends in .csv in whatever letter case, so the
    field then always ends in .csv, and browsing to the result again
    changes nothing. *)
Theorem browse_gives_csv_path (chosen field : string) :
  (chosen = "" -> browse_csv chosen field = field)
  /\ (chosen <> "" ->
      endswith (lower (browse_csv chosen field)) ".csv" = true
      /\ (endswith (lower chosen) ".csv" = true ->
          browse_csv chosen field = chosen)
      /\ (endswith (lower chosen) ".csv" = false ->
          browse_csv chosen field = (chosen ++ ".csv")%string)
      /\ forall field',
          browse_csv (browse_csv chosen field) field'
          = browse_csv chosen field).
Proof.
  split.
  - intros ->. reflexivity.
  - intros Hne. unfold browse_csv at 1 2 3 5.
    assert (He : is_empty chosen = false).
    { destruct (is_empty chosen) eqn:E; [| reflexivity].
      apply is_empty_spec in E. contradiction. }
    rewrite He.
    assert (Hres : forall r, r <> "" -> endswith (lower r) ".csv" = true ->
                   forall field', browse_csv r field' = r).
    { intros r Hr Hs field'. unfold browse_csv.
      destruct (is_empty r) eqn:E; [apply is_empty_spec in E; contradiction |].
      now rewrite Hs. }
    destruct (endswith (lower chosen) ".csv") eqn:Hs; cbn [negb].
    + split; [exact Hs |]. split; [reflexivity |]. split; [discriminate |].
      intros field'. unfold browse_csv at 2. rewrite He, Hs. cbn [negb].
      now apply Hres.
    + assert (Hs' : endswith (lower (chosen ++ ".csv")) ".csv" = true).
      { rewrite lower_append. apply endswith_append. }
      split; [exact Hs' |]. split; [discriminate |]. split; [reflexivity |].
      intros field'. unfold browse_csv at 2. rewrite He, Hs. cbn [negb].
      apply Hres; [| exact Hs'].
      destruct chosen; [contradiction | discriminate].
Qed.

Lemma browse_gives_csv_path_witness :
  endswith (lower (browse_csv "C:\logs\Run1.CSV" "old.csv")) ".csv" = true
  /\ endswith (lower (browse_csv "run2" "old.csv")) ".csv" = true.
Proof.
  split.
  - apply (proj2 (browse_gives_csv_path "C:\logs\Run1.CSV" "old.csv")).
    discriminate.
  - apply (proj2 (browse_gives_csv_path "run2" "old.csv")). discriminate.
Defined.

Lemma append_same_length (a1 a2 b1 b2 : string) :
  String.length a1 = String.length a2 ->
  (a1 ++ b1 = a2 ++ b2)%string -> a1 = a2 /\ b1 = b2.
Proof.
  revert a2. induction a1 as [| c1 a1 IH]; intros [| c2 a2] Hl E;
    try discriminate Hl.
  - split; [reflexivity | exact E].
  - cbn in Hl, E. injection E as -> E. injection Hl as Hl.
    destruct (IH a2 Hl E) as [-> ->]. split; reflexivity.
Qed.

Lemma length_append (a b : string) :
  String.length (a ++ b) = (String.length a + String.length b)%nat.
Proof. induction a as [| c a IH]; cbn; [reflexivity | now rewrite IH]. Qed.

Lemma append_inv_tail (a1 a2 b : string) :
  (a1 ++ b = a2 ++ b)%string -> a1 = a2.
Proof.
  intros E. apply (append_same_length a1 a2 b b); [| exact E].
  apply (f_equal String.length) in E. rewrite !length_append in E. lia.
Qed.

Lemma str_nat_inj (n1 n2 : nat) : str_nat n1 = str_nat n2 -> n1 = n2.
Proof.
  unfold str_nat. intros E.
  apply (f_equal DecimalString.NilEmpty.uint_of_string) in E.
  rewrite !DecimalString.NilEmpty.usu in E. injection E as E.
  apply (f_equal Nat.of_uint) in E.
  now rewrite !DecimalNat.Unsigned.of_to in E.
Qed.

(** X17: the default file name of the GUI determines its test index and
    its timestamp: two default names built from timestamps of the same
    length are equal only if index and timestamp are. Since [on_finished]
    advances the test index, the default name offered after a run is never
    the default name of that run. *)
Theorem default_names_differ (ts1 ts2 : string) (id1 id2 : nat) :
  String.length ts1 = String.length ts2 ->
  (default_csv_name ts1 id1 = default_csv_name ts2 id2 ->
   ts1 = ts2 /\ id1 = id2)
  /\ (forall w d,
         default_csv_name ts2 (Gui.test_index (fst (fst (Gui.on_finished w d))))
         <> default_csv_name ts1 (Gui.test_index w)).
Proof.
  intros Hl.
  assert (Hinj : forall i1 i2,
             default_csv_name ts1 i1 = default_csv_name ts2 i2 ->
             ts1 = ts2 /\ i1 = i2).
  { intros i1 i2 E. unfold default_csv_name in E.
    apply (append_same_length "thermocouple_" "thermocouple_") in E;
      [| reflexivity].
    destruct E as [_ E].
    apply append_same_length in E; [| exact Hl]. destruct E as [-> E].
    apply (append_same_length "_test" "_test") in E; [| reflexivity].
    destruct E as [_ E]. apply append_inv_tail, str_nat_inj in E.
    now split. }
  split; [apply Hinj |].
  intros w d E. symmetry in E. apply Hinj in E. destruct E as [_ E].
  unfold Gui.on_finished in E. cbn in E. lia.
Qed.

Lemma default_names_differ_witness :
  default_csv_name "2024-05-01_12-00-09"
    (Gui.test_index (fst (fst (Gui.on_finished Gui.init no_files))))
  <> default_csv_name "2024-05-01_12-00-00" (Gui.test_index Gui.init).
Proof.
  exact (proj2 (default_names_differ "2024-05-01_12-00-00"
                  "2024-05-01_12-00-09" 1 1 eq_refl) Gui.init no_files).
Defined.

(* ================================================================== *)
(** * A port that does not open, a read that raises, a blank path *)

(** X1: a port that does not open is handled differently by the two
    front ends. The CLI prints one error and returns 1 without creating,
    opening or writing any file. The GUI has opened the log before the
    worker tries the port: the file exists afterwards and holds the header
    (or, with append on an existing file, what it held); no Sample is
    emitted and one dialog names the port. *)
Theorem port_failure_and_the_log (repr : float -> string) :
  (forall a e,
      0 < Cli.interval a ->
      Cli.e_serial_ok e = false ->
      Cli.main repr a e =
      Cli.mkRun (Cli.Exit 1)
                [MakeDirs (Cli.out_path a e); ReaderOpen;
                 Stderr ("ERROR: Failed to open serial port " ++ Cli.port a)]
                (Cli.e_fs e) 0)
  /\ (forall fm t0 ticks w d,
         match Gui.launched (Gui.session repr fm false t0 ticks w d) with
         | Gui.Launched port _ =>
             samples (Gui.worker_trace
                        (Gui.session repr fm false t0 ticks w d)) = []
             /\ dialogs (Gui.window_trace
                           (Gui.session repr fm false t0 ticks w d))
                = [("Failed to open " ++ port ++ ". Is it in use?")%string]
             /\ exists_ (Gui.final_fs (Gui.session repr fm false t0 ticks w d))
                        (strip (Gui.csv_path fm)) = true
             /\ content (Gui.final_fs (Gui.session repr fm false t0 ticks w d))
                        (strip (Gui.csv_path fm))
                = if Gui.append_chk fm && exists_ d (strip (Gui.csv_path fm))
                  then content d (strip (Gui.csv_path fm))
                  else [header]
         | _ => True
         end).
Proof.
  split.
  - intros a e. apply cli_port_failure_leaves_files.
  - intros fm t0 ticks w d. apply gui_port_failure_leaves_header.
Qed.

Lemma port_failure_and_the_log_witness :
  Cli.r_exit
    (Cli.main repr0 demo_args
       (Cli.mkEnv one_log "default.csv" false 0 demo_ticks)) = Cli.Exit 1
  /\ Cli.r_fs
       (Cli.main repr0 demo_args
          (Cli.mkEnv one_log "default.csv" false 0 demo_ticks)) "log.csv"
     = Some old_rows.
Proof.
  rewrite (proj1 (port_failure_and_the_log repr0) demo_args
             (Cli.mkEnv one_log "default.csv" false 0 demo_ticks));
    [split; reflexivity | reflexivity | reflexivity].
Defined.

Lemma errors_app (l1 l2 : list event) :
  errors (l1 ++ l2) = errors l1 ++ errors l2.
Proof.
  induction l1 as [| ev l1 IH]; [reflexivity |].
  destruct ev; cbn; rewrite ?IH; reflexivity.
Qed.

Lemma errors_actions (l : list event) :
  forallb loop_action l = true -> errors l = [].
Proof.
  induction l as [| ev l IH]; intros H; [reflexivity |].
  cbn [forallb] in H. apply andb_prop in H. destruct H as [Hev H].
  destruct ev; try discriminate Hev; cbn; now apply IH.
Qed.

Lemma dialogs_of_errors (repr : float -> string) (evs : list event)
  (w : Gui.window) (d : fs) :
  dialogs (snd (Gui.deliver repr evs w d)) = errors evs.
Proof.
  destruct (gui_deliver_window repr evs w d) as (_ & _ & H). rewrite H.
  clear H. induction evs as [| ev rest IH]; [reflexivity |].
  destruct ev; cbn [map List.concat errors app]; rewrite ?IH; reflexivity.
Qed.

(** A stretch of reads that succeed, with no stop request: the worker goes
    through all of them and carries on with what follows. *)
Lemma worker_loop_through (repr : float -> string) (interval : Q)
  (good : list tick) :
  forallb is_good good = true ->
  forall s,
    Gui.w_stop s = false ->
    exists evs1 s1,
      Gui.w_stop s1 = false
      /\ map (sample_row repr) (samples evs1) = map (row_of repr) good
      /\ forallb loop_action evs1 = true
      /\ forall rest,
          Gui.worker_loop interval (unstopped good ++ rest) s =
          let '(x, evs2) := Gui.worker_loop interval rest s1 in
          (x, evs1 ++ evs2).
Proof.
  induction good as [| tk good IH]; intros Hg s Hs.
  - exists [], s. repeat split; try assumption.
    intros rest. cbn [unstopped map app].
    now destruct (Gui.worker_loop interval rest s).
  - cbn [forallb] in Hg. apply andb_prop in Hg. destruct Hg as [Htk Hg].
    unfold is_good in Htk.
    destruct (interrupt tk) eqn:Hi; [discriminate |].
    assert (Hrow : forall temps, result tk = ReadOk temps ->
                   row_of repr tk = data_row repr (stamp tk) (channels temps))
      by (intros temps E; unfold row_of; now rewrite E).
    destruct (result tk) as [temps |] eqn:Hr; [| discriminate].
    specialize (Hrow temps eq_refl).
    destruct (IH Hg (Gui.mkWorker false (Gui.w_next_t s + interval)
                       (after_wait (Gui.w_next_t s) (Gui.w_now s)
                          (oversleep tk) + latency tk)) eq_refl)
      as (evs1 & s1 & Hs1 & Hw1 & Ha1 & Hrest).
    exists ((wait_events (Gui.w_next_t s) (Gui.w_now s) ++ [] ++
             [Read; SigSample (Gui.sample_of (stamp tk) (channels temps))])
            ++ evs1), s1.
    split; [exact Hs1 |]. split.
    { rewrite !samples_app, samples_wait. cbn [samples app map].
      now rewrite Hw1, sample_row_of, Hrow. }
    split.
    { rewrite !forallb_app, loop_action_wait, Ha1. reflexivity. }
    intros rest. cbn [unstopped map app Gui.worker_loop]. rewrite Hs.
    unfold Gui.iteration. cbn [Gui.g_stop Gui.g_tick]. rewrite Hr.
    fold (unstopped good). rewrite Hrest.
    destruct (Gui.worker_loop interval rest s1) as [x evs2].
    now rewrite <- !app_assoc.
Qed.

(** X18: a read that raises in the GUI ends the run: the worker signals
    that error and no other, the window shows it in one dialog, and the
    log is closed holding the header and the rows of all passes completed
    before. *)
Theorem gui_read_error_ends_run (repr : float -> string) (fm : Gui.form)
  (t0 : Q) (good : list tick) (g : Gui.gtick) (rest : list Gui.gtick)
  (msg : string) (w : Gui.window) (d : fs) :
  forallb is_good good = true ->
  Gui.g_stop g <> Gui.StopBeforeTest ->
  result (Gui.g_tick g) = ReadError msg ->
  match Gui.launched
          (Gui.session repr fm true t0 (unstopped good ++ g :: rest) w d) with
  | Gui.Launched port i =>
      fst (Gui.run port i true t0 (unstopped good ++ g :: rest))
      = Gui.Failed msg
      /\ dialogs (Gui.window_trace
                    (Gui.session repr fm true t0
                                 (unstopped good ++ g :: rest) w d))
         = [msg]
      /\ Gui.csv_file
           (Gui.final (Gui.session repr fm true t0
                                   (unstopped good ++ g :: rest) w d))
         = None
      /\ content
           (Gui.final_fs (Gui.session repr fm true t0
                                      (unstopped good ++ g :: rest) w d))
           (strip (Gui.csv_path fm))
         = (if Gui.append_chk fm && exists_ d (strip (Gui.csv_path fm))
            then content d (strip (Gui.csv_path fm)) else [header])
           ++ map (row_of repr) good
  | _ => True
  end.
Proof.
  intros Hg Hstop Hr.
  pose proof (gui_session_ended repr fm true t0
                (unstopped good ++ g :: rest) w d) as He.
  cbv zeta in He. unfold Gui.session in *.
  pose proof (gui_start_keeps fm w d) as Hk. cbv zeta in Hk.
  destruct (Gui.start fm w d) as [[[st w1] d1] evs1]. cbn [fst snd] in Hk.
  destruct st as [| | port i]; cbn [Gui.launched] in *; try exact I.
  destruct Hk as (_ & _ & Hdl & _).
  assert (Hrun : exists evs,
             Gui.run port i true t0 (unstopped good ++ g :: rest)
             = (Gui.Failed msg,
                ([ReaderOpen; SigStatus ("Running: " ++ port)] ++ evs)
                ++ [SigError msg] ++ Gui.teardown)
             /\ forallb loop_action evs = true
             /\ map (sample_row repr) (samples evs) = map (row_of repr) good).
  { unfold Gui.run. cbn [negb].
    destruct (worker_loop_through repr i good Hg (Gui.mkWorker false t0 t0)
                eq_refl) as (evs1' & s1 & Hs1 & Hw1 & Ha1 & Hrest).
    rewrite Hrest. cbn [Gui.worker_loop]. rewrite Hs1.
    unfold Gui.iteration.
    destruct (Gui.g_stop g) eqn:Hgs; [| contradiction |];
      cbv beta iota zeta; rewrite Hr.
    - eexists. split; [reflexivity |]. split.
      + now rewrite !forallb_app, Ha1, loop_action_wait.
      + rewrite !samples_app, samples_wait. cbn [samples app].
        now rewrite app_nil_r.
    - eexists. split; [reflexivity |]. split.
      + now rewrite !forallb_app, Ha1, loop_action_wait.
      + rewrite !samples_app, samples_wait. cbn [samples app].
        now rewrite app_nil_r. }
  destruct Hrun as (evs & Hrun & Hact & Hrows).
  rewrite Hrun in *. cbn [fst snd] in *.
  pose proof (dialogs_of_errors repr
                (([ReaderOpen; SigStatus ("Running: " ++ port)] ++ evs)
                 ++ [SigError msg] ++ Gui.teardown) w1 d1) as Hdd.
  destruct (Gui.deliver repr _ w1 d1) as [[w2 d2] evs2].
  cbn [fst snd Gui.worker_trace Gui.final Gui.final_fs Gui.window_trace] in *.
  destruct He as (_ & Hc & _ & Hd & Hw);
    [rewrite ?Hrun; cbn [fst]; discriminate |].
  assert (Happ : forall l1 l2, dialogs (l1 ++ l2) = dialogs l1 ++ dialogs l2).
  { induction l1 as [| e1 l1 IH1]; intros l2; [reflexivity |].
    destruct e1; cbn; rewrite ?IH1; reflexivity. }
  split; [now rewrite Hrun |]. split.
  { rewrite Happ, Hdl, Hdd, !errors_app, (errors_actions evs Hact).
    reflexivity. }
  split; [exact Hc |].
  rewrite Hd, Hw, !samples_app. cbn [samples app]. rewrite app_nil_r, Hrows.
  destruct (Gui.append_chk fm && exists_ d (strip (Gui.csv_path fm)));
    cbn [negb app]; reflexivity.
Qed.

Lemma gui_read_error_ends_run_witness :
  dialogs
    (Gui.window_trace
       (Gui.session repr0 demo_form true 0
          (unstopped (firstn 2 demo_ticks) ++ failing_ticks) Gui.init no_files))
  = ["device lost"].
Proof.
  pose proof (gui_read_error_ends_run repr0 demo_form 0 (firstn 2 demo_ticks)
                (Gui.mkGTick Gui.NoStop
                   (mkTick 0 0 false (ReadError "device lost") ""))
                [] "device lost" Gui.init no_files) as H.
  cbn [Gui.launched] in H.
  destruct H as (_ & H & _);
    [reflexivity | discriminate | reflexivity | exact H].
Defined.

(** ** Stripping the path *)



Lemma rstrip_blank (t : string) : rstrip t = "" <-> all_space t = true.
Proof.
  induction t as [| c t IH]; [split; reflexivity |]. cbn.
  destruct (rstrip t) eqn:E.
  - assert (Ht : all_space t = true) by now apply IH.
    rewrite Ht, andb_true_r. destruct (is_space c); split; congruence.
  - assert (Ht : all_space t = false).
    { destruct (all_space t); [| reflexivity].
      assert (Hf : String a s = "") by now apply IH. discriminate Hf. }
    rewrite Ht, andb_false_r. split; discriminate.
Qed.






